(** * DocCrop: the farm-assistant backend, embedded in Rocq

    The development follows [backend/app.py] and [backend/scheduler.py]:

    - [Py]: the fragment of the Python runtime the handlers rely on
      (exceptions, JSON values, [float()], [dict.get], [sum]);
    - [Scheduler]: the static pesticide tables and
      [next_pesticide_recommendation];
    - [Schemes]: the filter of the [/api/schemes] handler;
    - [Ledger]: the two persistence back ends and the expenses handlers;
    - [Market], [Api]: the rate table and the lookup routes;
    - [Translator], [Weather], [Notes], [Disease]: the remaining routes,
      with the services they call taken as arguments.

    Dates of [datetime.date] are proleptic Gregorian ordinals (what
    [date.toordinal] returns), floats are binary64 ([PrimFloat]), Python
    [str] values are their UTF-8 bytes ([string]). *)

From Stdlib Require Import ZArith Lia List String Ascii Bool Floats.
From Stdlib Require Import Sorting.Sorted Sorting.Permutation.
Import ListNotations.

Open Scope string_scope.
Open Scope list_scope.
Open Scope Z_scope.

(* ================================================================== *)
(** * The Python fragment *)
(* ================================================================== *)

Module Py.

(** Exceptions that can escape the modelled code. *)
Inductive exn : Type :=
| ValueError
| TypeError
| OverflowError
| AttributeError
| IntegrityError      (* sqlite3.IntegrityError *)
| OperationalError    (* sqlite3.OperationalError *)
| DuplicateKeyError   (* pymongo.errors.DuplicateKeyError *)
| InvalidId.          (* bson.errors.InvalidId *)

(** A computation either returns or raises. *)
Inductive result (A : Type) : Type :=
| Ok (a : A)
| Raise (e : exn).
Arguments Ok {A} a.
Arguments Raise {A} e.

Definition bind {A B : Type} (r : result A) (k : A -> result B) : result B :=
  match r with
  | Ok a => k a
  | Raise e => Raise e
  end.

Notation "x <- r ;; k" := (bind r (fun x => k))
  (at level 61, r at next level, right associativity).

(** JSON values as [json.load] / [request.get_json] build them. *)
#[local] Unset Elimination Schemes.
Inductive json : Type :=
| JNull
| JBool (b : bool)
| JInt (z : Z)
| JFloat (f : float)
| JStr (s : string)
| JList (l : list json)
| JDict (kv : list (string * json)).
#[local] Set Elimination Schemes.

(** [d.get(key)] on a dict given by its items. *)
Fixpoint get (key : string) (kv : list (string * json)) : option json :=
  match kv with
  | [] => None
  | (k, v) :: rest => if String.eqb k key then Some v else get key rest
  end.

(** [d.get(key, default)] / an optional argument with its default. *)
Definition default {A : Type} (d : A) (o : option A) : A :=
  match o with
  | Some a => a
  | None => d
  end.

(** What the handlers return: [jsonify(body)] with a status code, or an
    exception that leaves the view function (Flask then answers with its
    generic HTML error page, not with a JSON payload). *)
Inductive response : Type :=
| Json (status : Z) (body : json)
| Unhandled (e : exn).

(** Builtins of the runtime and of the client libraries that are used but
    not defined by the repository.  [None] stands for the exception the
    builtin raises on that input. *)
Class Builtins : Type := {
  str_strip : string -> string;              (* str.strip() *)
  str_lower : string -> string;              (* str.lower() *)
  int_of_str : string -> option Z;           (* int(s), ValueError *)
  float_of_str : string -> option float;     (* float(s), ValueError *)
  float_sum : list float -> float;           (* sum(xs), xs floats, not empty *)
  oid_of_str : string -> option string;      (* str(ObjectId(s)), InvalidId *)
  invalid_id_message : string -> string;     (* str(InvalidId) for that input *)
  isoformat : Z -> string                    (* date.fromordinal(n).isoformat() *)
}.

(** [float(n)] for an [int]: the nearest binary64, ties to even;
    [OverflowError] when that is not finite. *)
Definition float_of_Z (z : Z) : float :=
  SF2Prim (binary_normalize prec emax z 0 false).

Definition float_of_int (z : Z) : result float :=
  let f := float_of_Z z in
  if PrimFloat.is_infinity f then Raise OverflowError else Ok f.

(** [float(v)] for a JSON value [v]. *)
Definition py_float {B : Builtins} (v : json) : result float :=
  match v with
  | JNull => Raise TypeError
  | JBool b => Ok (if b then 1%float else 0%float)
  | JInt z => float_of_int z
  | JFloat f => Ok f
  | JStr s =>
      match float_of_str s with
      | Some f => Ok f
      | None => Raise ValueError
      end
  | JList _ => Raise TypeError
  | JDict _ => Raise TypeError
  end.

(** The value of [sum(...)] and of the arithmetic on it: an [int] or a
    [float].  [sum] starts from the [int] 0, so the sum of no item is the
    [int] 0 and the sum of floats is a float; how the floats are added up
    (plainly from left to right, or with a compensation of the rounding
    error as newer interpreters do) is the runtime's business. *)
Inductive num : Type :=
| NInt (z : Z)
| NFloat (f : float).

Definition py_sum {B : Builtins} (xs : list float) : num :=
  match xs with
  | [] => NInt 0
  | _ :: _ => NFloat (float_sum xs)
  end.

(** The operand of a float operation; the only [int] that occurs is 0. *)
Definition to_float (n : num) : float :=
  match n with
  | NInt z => float_of_Z z
  | NFloat f => f
  end.

(** [a - b]. *)
Definition num_sub (a b : num) : num :=
  match a, b with
  | NInt x, NInt y => NInt (x - y)
  | _, _ => NFloat (to_float a - to_float b)%float
  end.



(** ** [datetime.date] arithmetic on ordinals *)

Definition MINORDINAL : Z := 1.          (* date(1, 1, 1).toordinal() *)
Definition MAXORDINAL : Z := 3652059.    (* date(9999, 12, 31).toordinal() *)

Definition valid_date (d : Z) : Prop := MINORDINAL <= d <= MAXORDINAL.

(** [d + timedelta(days=n)]: [OverflowError] outside the calendar. *)
Definition date_add (d n : Z) : result Z :=
  let o := d + n in
  if (MINORDINAL <=? o) && (o <=? MAXORDINAL) then Ok o else Raise OverflowError.

(** [d - timedelta(days=n)]. *)
Definition date_sub (d n : Z) : result Z := date_add d (- n).

End Py.

(* ================================================================== *)
(** * backend/scheduler.py *)
(* ================================================================== *)

Module Scheduler.
Import Py.

Record item : Type := {
  days_after_sowing : Z;
  pesticide : string;
  note : string
}.

Definition Wheat : list item :=
  [ {| days_after_sowing := 10; pesticide := "Herbicide A"; note := "Weed control" |};
    {| days_after_sowing := 25; pesticide := "Fungicide B"; note := "Rust prevention" |};
    {| days_after_sowing := 40; pesticide := "Insecticide C"; note := "Aphid control" |} ].

Definition Rice : list item :=
  [ {| days_after_sowing := 15; pesticide := "Herbicide R1"; note := "Weed control" |};
    {| days_after_sowing := 30; pesticide := "Fungicide R2"; note := "Blast prevention" |} ].

Definition SCHEDULES : list (string * list item) :=
  [ ("Wheat", Wheat); ("Rice", Rice) ].

(** [SCHEDULES.get(crop, SCHEDULES['Wheat'])]. *)
Fixpoint lookup (crop : string) (table : list (string * list item)) : option (list item) :=
  match table with
  | [] => None
  | (k, v) :: rest => if String.eqb k crop then Some v else lookup crop rest
  end.

(** [crop or 'Wheat'] for a [str]. *)
Definition or_wheat (crop : string) : string :=
  if String.eqb crop "" then "Wheat" else crop.

Definition get_pesticide_schedule {B : Builtins} (crop : string) : list item :=
  let crop := str_strip (or_wheat crop) in
  default Wheat (lookup crop SCHEDULES).

(** The returned dict: [{"due_date": ..., **item}] or [{"message": ...}]. *)
Inductive recommendation : Type :=
| Due (due_date : string) (it : item)
| Message (message : string).

Definition no_upcoming : recommendation :=
  Message "No upcoming tasks in schedule".

(** The [for item in schedule] loop. *)
Fixpoint first_due {B : Builtins} (sowing_date from_date : Z) (schedule : list item)
  : result recommendation :=
  match schedule with
  | [] => Ok no_upcoming
  | it :: rest =>
      due_date <- date_add sowing_date (days_after_sowing it) ;;
      if from_date <=? due_date
      then Ok (Due (isoformat due_date) it)
      else first_due sowing_date from_date rest
  end.

Definition next_pesticide_recommendation {B : Builtins} (crop : string) (from_date : Z)
  : result recommendation :=
  let crop := str_strip (or_wheat crop) in
  let schedule := get_pesticide_schedule crop in
  sowing_date <- date_sub from_date 7 ;;
  first_due sowing_date from_date schedule.

End Scheduler.

(* ================================================================== *)
(** * A reference instance of the builtins on ASCII text *)
(* ================================================================== *)

(** The instance decides the builtins on ASCII text the way CPython does;
    it is what the examples below are evaluated with, and no theorem on the
    code depends on it.  Its limits: it knows no Unicode digits, spaces or
    case pairs, and not the interpreter's cap on the length of an integer
    literal; of the identifiers [ObjectId] takes it knows the 24
    hexadecimal digits only (no 24 characters of hexadecimal pairs and
    blanks). *)
Module Reference.
Import Py.

Definition code (c : ascii) : Z := Z.of_N (N_of_ascii c).

(** [str.isspace] on ASCII: TAB, LF, VT, FF, CR, FS, GS, RS, US, SPACE. *)
Definition is_space (c : ascii) : bool :=
  let n := code c in
  ((9 <=? n) && (n <=? 13)) || ((28 <=? n) && (n <=? 32)).

Definition is_digit (c : ascii) : bool :=
  let n := code c in (48 <=? n) && (n <=? 57).

Definition digit (c : ascii) : Z := code c - 48.

Definition lower_char (c : ascii) : ascii :=
  let n := code c in
  if (65 <=? n) && (n <=? 90) then ascii_of_N (Z.to_N (n + 32)) else c.

Fixpoint lower (s : string) : string :=
  match s with
  | EmptyString => EmptyString
  | String c r => String (lower_char c) (lower r)
  end.

Fixpoint lstrip (s : string) : string :=
  match s with
  | EmptyString => EmptyString
  | String c r => if is_space c then lstrip r else s
  end.

Fixpoint rstrip (s : string) : string :=
  match s with
  | EmptyString => EmptyString
  | String c r =>
      match rstrip r with
      | EmptyString => if is_space c then EmptyString else String c EmptyString
      | r' => String c r'
      end
  end.

Definition strip (s : string) : string := rstrip (lstrip s).

(** A run of decimal digits, single underscores allowed between digits:
    the value accumulated on [acc], the number of digits, and the rest. *)
Fixpoint span_digits (s : string) (acc cnt : Z) (prev : bool) : option (Z * Z * string) :=
  match s with
  | EmptyString => Some (acc, cnt, EmptyString)
  | String c r =>
      if is_digit c then span_digits r (10 * acc + digit c) (cnt + 1) true
      else if Ascii.eqb c "_"
      then
        match r with
        | String c' _ => if prev && is_digit c' then span_digits r acc cnt true else None
        | EmptyString => None
        end
      else Some (acc, cnt, s)
  end.

(** An optional sign: whether it is a minus, and the rest. *)
Definition split_sign (s : string) : bool * string :=
  match s with
  | String c r =>
      if Ascii.eqb c "-" then (true, r)
      else if Ascii.eqb c "+" then (false, r)
      else (false, s)
  | EmptyString => (false, s)
  end.

(** [int(s)], base 10. *)
Definition parse_int (s : string) : option Z :=
  let (neg, r) := split_sign (strip s) in
  match span_digits r 0 0 false with
  | Some (v, cnt, EmptyString) =>
      if 0 <? cnt then Some (if neg then - v else v) else None
  | _ => None
  end.

(** The binary64 nearest to [m * 10 ^ e10] for [0 <= m], ties to even. *)
Definition decimal_to_float (m e10 : Z) : float :=
  if m =? 0 then 0%float
  else if 0 <=? e10 then float_of_Z (m * 10 ^ e10)
  else
    let d := 10 ^ (- e10) in
    let s := Z.max 0 (Z.log2 d - Z.log2 m + 64) in
    let q := (m * 2 ^ s) / d in
    let sticky := if (m * 2 ^ s) mod d =? 0 then 0 else 1 in
    SF2Prim (binary_normalize prec emax (2 * q + sticky) (- s - 1) false).

Definition signed (neg : bool) (f : float) : float :=
  if neg then (- f)%float else f.

(** The exponent part [e[+-]digits] that ends a float literal. *)
Definition parse_exponent (s : string) : option Z :=
  match s with
  | EmptyString => Some 0
  | String c r =>
      if Ascii.eqb (lower_char c) "e"
      then
        let (neg, r') := split_sign r in
        match span_digits r' 0 0 false with
        | Some (v, cnt, EmptyString) =>
            if 0 <? cnt then Some (if neg then - v else v) else None
        | _ => None
        end
      else None
  end.

(** [float(s)]. *)
Definition parse_float (s : string) : option float :=
  let (neg, r) := split_sign (strip s) in
  let w := lower r in
  if String.eqb w "inf" || String.eqb w "infinity" then Some (signed neg infinity)
  else if String.eqb w "nan" then Some nan
  else
    match span_digits r 0 0 false with
    | Some (ip, n1, String "." r1) =>
        match span_digits r1 ip 0 false with
        | Some (m, n2, r2) =>
            if 0 <? n1 + n2
            then
              match parse_exponent r2 with
              | Some e => Some (signed neg (decimal_to_float m (e - n2)))
              | None => None
              end
            else None
        | None => None
        end
    | Some (m, n1, r1) =>
        if 0 <? n1
        then
          match parse_exponent r1 with
          | Some e => Some (signed neg (decimal_to_float m e))
          | None => None
          end
        else None
    | None => None
    end.

Definition is_hex (c : ascii) : bool :=
  let n := code (lower_char c) in
  is_digit c || ((97 <=? n) && (n <=? 102)).

Fixpoint all_hex (s : string) : bool :=
  match s with
  | EmptyString => true
  | String c r => is_hex c && all_hex r
  end.

(** [str(ObjectId(s))]: 24 hexadecimal digits, rendered in lower case. *)
Definition parse_oid (s : string) : option string :=
  if Nat.eqb (String.length s) 24 && all_hex s then Some (lower s) else None.

Definition oid_error (s : string) : string :=
  String.append "'" (String.append s
    "' is not a valid ObjectId, it must be a 12-byte input or a 24-character hex string").

(** [width] decimal digits of [z], zero padded. *)
Fixpoint fixed_width (width : nat) (z : Z) (acc : string) : string :=
  match width with
  | O => acc
  | S w => fixed_width w (z / 10) (String (ascii_of_N (Z.to_N (48 + z mod 10))) acc)
  end.

Definition DAYS_IN_MONTH : list Z := [-1; 31; 28; 31; 30; 31; 30; 31; 31; 30; 31; 30; 31].
Definition DAYS_BEFORE_MONTH : list Z := [-1; 0; 31; 59; 90; 120; 151; 181; 212; 243; 273; 304; 334].

(** [datetime._ord2ymd]. *)
Definition ord2ymd (n : Z) : Z * Z * Z :=
  let n := n - 1 in
  let n400 := n / 146097 in let n := n mod 146097 in
  let year := n400 * 400 + 1 in
  let n100 := n / 36524 in let n := n mod 36524 in
  let n4 := n / 1461 in let n := n mod 1461 in
  let n1 := n / 365 in let n := n mod 365 in
  let year := year + n100 * 100 + n4 * 4 + n1 in
  if (n1 =? 4) || (n100 =? 4) then (year - 1, 12, 31)
  else
    let leapyear := (n1 =? 3) && (negb (n4 =? 24) || (n100 =? 3)) in
    let month := Z.shiftr (n + 50) 5 in
    let preceding :=
      nth (Z.to_nat month) DAYS_BEFORE_MONTH 0
      + (if (2 <? month) && leapyear then 1 else 0) in
    if n <? preceding
    then
      let month := month - 1 in
      let preceding :=
        preceding - (nth (Z.to_nat month) DAYS_IN_MONTH 0
                     + (if (month =? 2) && leapyear then 1 else 0)) in
      (year, month, n - preceding + 1)
    else (year, month, n - preceding + 1).

Definition iso (n : Z) : string :=
  let '(y, m, d) := ord2ymd n in
  fixed_width 4 y (String "-" (fixed_width 2 m (String "-" (fixed_width 2 d EmptyString)))).

(** [sum] by plain additions from left to right, starting from 0. *)
Definition sum_left (xs : list float) : float :=
  fold_left PrimFloat.add xs 0%float.

#[export] Instance builtins : Builtins := {|
  str_strip := strip;
  str_lower := lower;
  int_of_str := parse_int;
  float_of_str := parse_float;
  float_sum := sum_left;
  oid_of_str := parse_oid;
  invalid_id_message := oid_error;
  isoformat := iso
|}.

End Reference.


(* ================================================================== *)
(** * The scheme filter of backend/app.py *)
(* ================================================================== *)

Module Schemes.
Import Py.

(** [item.get(key, '').lower()]: the record has to be an object and the
    field, when present, a string; anything else has no such method. *)
Definition lowered_field {B : Builtins} (key : string) (item : json) : result string :=
  match item with
  | JDict kv =>
      match get key kv with
      | None => Ok (str_lower "")
      | Some (JStr s) => Ok (str_lower s)
      | Some _ => Raise AttributeError
      end
  | _ => Raise AttributeError
  end.

(** [(not wanted) or (item.get(key, '').lower() == wanted)]; the right
    operand is evaluated only when [wanted] is not empty. *)
Definition field_ok {B : Builtins} (key wanted : string) (item : json) : result bool :=
  if String.eqb wanted ""
  then Ok true
  else v <- lowered_field key item ;; Ok (String.eqb v wanted).

(** The [for item in data.get('schemes', [])] loop. *)
Fixpoint scan {B : Builtins} (state district : string) (items : list json)
  : result (list json) :=
  match items with
  | [] => Ok []
  | item :: rest =>
      s_ok <- field_ok "state" state item ;;
      d_ok <- field_ok "district" district item ;;
      results <- scan state district rest ;;
      Ok (if s_ok && d_ok then item :: results else results)
  end.

(** [api_schemes].  [state] and [district] are the query arguments (the
    empty string when absent); [file] is the array under ["schemes"] of
    [schemes.json] ([[]] when the key is absent), [None] when the file does
    not exist. *)
Definition api_schemes {B : Builtins} (file : option (list json)) (state district : string)
  : response :=
  let state := str_strip (str_lower state) in
  let district := str_strip (str_lower district) in
  match file with
  | None => Json 200 (JDict [("schemes", JList [])])
  | Some items =>
      match scan state district items with
      | Ok results => Json 200 (JDict [("schemes", JList results)])
      | Raise e => Unhandled e
      end
  end.

End Schemes.

(* ================================================================== *)
(** * The ledger of backend/app.py *)
(* ================================================================== *)

(** [ORDER BY] / [sort=]: insertion into a list ordered by [before]. *)
Module Order.

Section Sort.
Context {A : Type} (before : A -> A -> bool).

Fixpoint insert_by (x : A) (l : list A) : list A :=
  match l with
  | [] => [x]
  | y :: l' => if before x y then x :: l else y :: insert_by x l'
  end.

Definition sort_by (l : list A) : list A := fold_right insert_by [] l.

End Sort.

End Order.

Module Ledger.
Import Py Order.

(** The body of [POST /api/expenses] at its documented shape: an object
    whose text fields are JSON strings (of well-formed Unicode) when
    present ([None]: the key is absent); [amount] is any JSON value, since
    the handler coerces it.  Bodies that are no object, or that give a text
    field a value of another type ([null], a number, a list), are outside
    this model. *)
Record payload : Type := {
  p_date : option string;
  p_type : option string;
  p_category : option string;
  p_amount : option json;
  p_note : option string
}.

(** What a request reads from its surroundings: the UTC date
    ([datetime.utcnow().strftime('%Y-%m-%d')]) and the [ObjectId] the driver
    generates for an inserted document. *)
Record environment : Type := {
  utc_today : string;
  new_object_id : string
}.

(** The columns both back ends store. *)
Record fields : Type := {
  date : string;
  type : string;
  category : string;
  amount : float;
  note : string
}.

(** ** The relational back end (sqlite3) *)

Record row : Type := {
  rowid : Z;
  row_data : fields
}.

(** The [entries] table in rowid order, and the counter that
    [AUTOINCREMENT] keeps in [sqlite_sequence]. *)
Record database : Type := {
  entries : list row;
  sqlite_sequence : Z
}.

Definition empty_database : database :=
  {| entries := []; sqlite_sequence := 0 |}.

Definition INT64_MIN : Z := - 2 ^ 63.
Definition INT64_MAX : Z := 2 ^ 63 - 1.

(** [CHECK(type IN ('expense','income'))]. *)
Definition type_check (t : string) : bool :=
  String.eqb t "expense" || String.eqb t "income".

Definition largest_rowid (db : database) : Z :=
  fold_right (fun r m => Z.max (rowid r) m) (sqlite_sequence db) (entries db).

(** What a REAL column gives back for the float bound to it: the float
    itself, except that negative zero comes back as 0.0 (a float without a
    fraction is kept as an integer). *)
Definition real_column (a : float) : float :=
  if PrimFloat.eqb a 0 then 0%float else a.

(** The columns as a later SELECT reads them. *)
Definition as_stored (f : fields) : fields :=
  {| date := date f; type := type f; category := category f;
     amount := real_column (amount f); note := note f |}.

(** [INSERT INTO entries (date, type, category, amount, note) VALUES (...)].
    The new rowid is one more than the largest ever used, and the insert
    fails when there is none left; then the constraints are checked: a NaN
    is bound as NULL, which [amount REAL NOT NULL] refuses, and the type has
    to pass the CHECK. *)
Definition sqlite_insert (db : database) (f : fields) : result database :=
  let last := largest_rowid db in
  if INT64_MAX <=? last then Raise OperationalError
  else if PrimFloat.is_nan (amount f) then Raise IntegrityError
  else if negb (type_check (type f)) then Raise IntegrityError
  else Ok {| entries := entries db ++ [ {| rowid := last + 1; row_data := as_stored f |} ];
             sqlite_sequence := last + 1 |}.

(** When the insert is accepted, and what it leaves. *)
Lemma sqlite_insert_accepted (db db' : database) (f : fields) :
  sqlite_insert db f = Ok db' ->
  largest_rowid db < INT64_MAX
  /\ PrimFloat.is_nan (amount f) = false
  /\ type_check (type f) = true
  /\ db' = {| entries := entries db
               ++ [ {| rowid := largest_rowid db + 1; row_data := as_stored f |} ];
              sqlite_sequence := largest_rowid db + 1 |}.
Proof.
  unfold sqlite_insert.
  destruct (INT64_MAX <=? largest_rowid db) eqn:Hfull; [discriminate|].
  destruct (PrimFloat.is_nan (amount f)); [discriminate|].
  destruct (type_check (type f)); [|discriminate]. cbn [negb].
  intros H. inversion H; subst. apply Z.leb_gt in Hfull. auto.
Qed.

(** [DELETE FROM entries WHERE id = ?]: the parameter has to fit SQLite's
    64-bit INTEGER, the driver raises [OverflowError] otherwise. *)
Definition sqlite_delete (db : database) (n : Z) : result database :=
  if (INT64_MIN <=? n) && (n <=? INT64_MAX)
  then Ok {| entries := filter (fun r => negb (rowid r =? n)) (entries db);
             sqlite_sequence := sqlite_sequence db |}
  else Raise OverflowError.

(** [ORDER BY date DESC, id DESC]: [a] comes before [b]. *)
Definition row_before (a b : row) : bool :=
  match String.compare (date (row_data a)) (date (row_data b)) with
  | Gt => true
  | Lt => false
  | Eq => rowid b <=? rowid a
  end.

(** [SELECT * FROM entries ORDER BY date DESC, id DESC]. *)
Definition select_ordered (db : database) : list row :=
  sort_by row_before (entries db).

(** ** The document back end (pymongo) *)

Record document : Type := {
  oid : string;          (* str(doc['_id']) *)
  doc_data : fields
}.

(** [insert_one(doc)] with the generated [_id]. *)
Definition insert_one (coll : list document) (new_id : string) (f : fields)
  : result (list document) :=
  if existsb (fun d => String.eqb (oid d) new_id) coll
  then Raise DuplicateKeyError
  else Ok (coll ++ [ {| oid := new_id; doc_data := f |} ]).

(** [delete_one({"_id": target})]. *)
Fixpoint delete_one (coll : list document) (target : string) : list document :=
  match coll with
  | [] => []
  | d :: rest =>
      if String.eqb (oid d) target then rest else d :: delete_one rest target
  end.

(** [a] may come before [b] under [sort=[('date', -1)]]. *)
Definition date_desc (a b : document) : Prop :=
  String.compare (date (doc_data a)) (date (doc_data b)) <> Lt.

(** [find({}, sort=[('date', -1)])]: the server returns the documents of
    the collection ordered by [date], descending; the order of documents
    with equal dates is the server's choice. *)
Class Cursor : Type := {
  find_sorted : list document -> list document;
  find_sorted_all : forall coll, Permutation (find_sorted coll) coll;
  find_sorted_desc : forall coll, StronglySorted date_desc (find_sorted coll)
}.

(** One such server: equal dates stay in the collection's own order. *)
Definition doc_before (a b : document) : bool :=
  match String.compare (date (doc_data a)) (date (doc_data b)) with
  | Lt => false
  | _ => true
  end.

Definition natural_order_find (coll : list document) : list document :=
  sort_by doc_before coll.

(** ** The store: [USE_MONGO] is fixed when the process starts *)

Inductive store : Type :=
| Relational (db : database)
| Document (coll : list document).

Definition fields_json (f : fields) : list (string * json) :=
  [ ("date", JStr (date f)); ("type", JStr (type f)); ("category", JStr (category f));
    ("amount", JFloat (amount f)); ("note", JStr (note f)) ].

(** [dict(r)] for a [sqlite3.Row]. *)
Definition row_json (r : row) : json :=
  JDict (("id", JInt (rowid r)) :: fields_json (row_data r)).

(** The document after [r['id'] = str(r.get('_id'))] and [r.pop('_id')]. *)
Definition doc_json (d : document) : json :=
  JDict (fields_json (doc_data d) ++ [ ("id", JStr (oid d)) ]).

(** [payload.get('date') or today]. *)
Definition date_or_today (e : environment) (d : option string) : string :=
  match d with
  | Some s => if String.eqb s "" then utc_today e else s
  | None => utc_today e
  end.

Definition api_add_entry {B : Builtins} (e : environment) (p : payload) (s : store)
  : response * store :=
  let entry_date := date_or_today e (p_date p) in
  let entry_type := default "expense" (p_type p) in
  let category := default "general" (p_category p) in
  match py_float (default (JInt 0) (p_amount p)) with
  | Raise ex => (Unhandled ex, s)
  | Ok amount =>
      let note := default "" (p_note p) in
      let doc := {| date := entry_date; type := entry_type; category := category;
                    amount := amount; note := note |} in
      match s with
      | Document coll =>
          match insert_one coll (new_object_id e) doc with
          | Ok coll' =>
              (Json 200 (JDict [("status", JStr "ok"); ("id", JStr (new_object_id e))]),
               Document coll')
          | Raise ex => (Unhandled ex, s)
          end
      | Relational db =>
          match sqlite_insert db doc with
          | Ok db' => (Json 200 (JDict [("status", JStr "ok")]), Relational db')
          | Raise ex => (Unhandled ex, s)
          end
      end
  end.

Definition api_list_entries {C : Cursor} (s : store) : response :=
  match s with
  | Document coll => Json 200 (JDict [("entries", JList (map doc_json (find_sorted coll)))])
  | Relational db => Json 200 (JDict [("entries", JList (map row_json (select_ordered db)))])
  end.

Definition api_delete_entry {B : Builtins} (entry_id : string) (s : store)
  : response * store :=
  match s with
  | Document coll =>
      match oid_of_str entry_id with
      | Some target =>
          (Json 200 (JDict [("deleted", JStr entry_id)]), Document (delete_one coll target))
      | None =>
          (Json 400 (JDict [("error", JStr (invalid_id_message entry_id))]), s)
      end
  | Relational db =>
      match int_of_str entry_id with
      | None => (Json 400 (JDict [("error", JStr "invalid id")]), s)
      | Some numeric_id =>
          match sqlite_delete db numeric_id with
          | Ok db' => (Json 200 (JDict [("deleted", JInt numeric_id)]), Relational db')
          | Raise ex => (Unhandled ex, s)
          end
      end
  end.

(** ** The expenses page *)

(** A listed record: a [sqlite3.Row] or a document (a [dict]). *)
Inductive record : Type :=
| SqlRow (r : row)
| MongoDoc (d : document).

(** [r['amount']] and [r['type']], whichever the record is. *)
Definition record_data (r : record) : fields :=
  match r with
  | SqlRow r => row_data r
  | MongoDoc d => doc_data d
  end.


(** [sum(r['amount'] for r in rows if r['type'] == ty)]. *)
Definition total_of {B : Builtins} (ty : string) (rows : list record) : num :=
  py_sum (map (fun r => amount (record_data r))
              (filter (fun r => String.eqb (type (record_data r)) ty) rows)).

(** The values handed to the template. *)
Record page : Type := {
  rows : list record;
  total_income : num;
  total_expense : num;
  profit : num
}.

Definition expenses_page {B : Builtins} {C : Cursor} (s : store) : page :=
  let rows :=
    match s with
    | Document coll => map MongoDoc (find_sorted coll)
    | Relational db => map SqlRow (select_ordered db)
    end in
  let total_income := total_of "income" rows in
  let total_expense := total_of "expense" rows in
  let profit := num_sub total_income total_expense in
  {| rows := rows; total_income := total_income;
     total_expense := total_expense; profit := profit |}.

(** ** Sequences of requests *)

Inductive request : Type :=
| AddEntry (e : environment) (p : payload)
| ListEntries
| DeleteEntry (entry_id : string).

Definition handle {B : Builtins} {C : Cursor} (s : store) (q : request) : response * store :=
  match q with
  | AddEntry e p => api_add_entry e p s
  | ListEntries => (api_list_entries s, s)
  | DeleteEntry entry_id => api_delete_entry entry_id s
  end.

(** The store after a sequence of requests. *)
Definition serve {B : Builtins} {C : Cursor} (s : store) (qs : list request) : store :=
  fold_left (fun s q => snd (handle s q)) qs s.

End Ledger.

(* ================================================================== *)
(** * Facts about the order of strings and about sorting *)
(* ================================================================== *)

Module StringOrder.

Lemma ascii_compare_refl (a : ascii) : Ascii.compare a a = Eq.
Proof. unfold Ascii.compare. apply N.compare_refl. Qed.

Lemma ascii_compare_lt_trans (a b c : ascii) :
  Ascii.compare a b = Lt -> Ascii.compare b c = Lt -> Ascii.compare a c = Lt.
Proof.
  unfold Ascii.compare. rewrite !N.compare_lt_iff. apply N.lt_trans.
Qed.

Lemma compare_refl (s : string) : String.compare s s = Eq.
Proof.
  induction s as [|c s IH]; simpl; [reflexivity|].
  now rewrite ascii_compare_refl.
Qed.

Lemma compare_lt_trans (a b c : string) :
  String.compare a b = Lt -> String.compare b c = Lt -> String.compare a c = Lt.
Proof.
  revert b c.
  induction a as [|x a IH]; intros [|y b] [|z c]; simpl; try congruence.
  destruct (Ascii.compare x y) eqn:Hxy; try discriminate;
    destruct (Ascii.compare y z) eqn:Hyz; try discriminate; intros Hab Hbc.
  - apply Ascii.compare_eq_iff in Hxy, Hyz. subst.
    rewrite ascii_compare_refl. eauto.
  - apply Ascii.compare_eq_iff in Hxy. subst. now rewrite Hyz.
  - apply Ascii.compare_eq_iff in Hyz. subst. now rewrite Hxy.
  - now rewrite (ascii_compare_lt_trans _ _ _ Hxy Hyz).
Qed.

Lemma compare_gt_lt (a b : string) :
  String.compare a b = Gt <-> String.compare b a = Lt.
Proof.
  rewrite (String.compare_antisym a b).
  destruct (String.compare b a); simpl; split; congruence.
Qed.

Lemma compare_gt_trans (a b c : string) :
  String.compare a b = Gt -> String.compare b c = Gt -> String.compare a c = Gt.
Proof.
  rewrite !compare_gt_lt. intros Hba Hcb. exact (compare_lt_trans _ _ _ Hcb Hba).
Qed.

(** "Not below" is transitive. *)
Lemma compare_ge_trans (a b c : string) :
  String.compare a b <> Lt -> String.compare b c <> Lt -> String.compare a c <> Lt.
Proof.
  intros Hab Hbc Hac.
  destruct (String.compare a b) eqn:E; try congruence.
  - apply String.compare_eq_iff in E. subst. contradiction.
  - apply compare_gt_lt in E.
    apply Hbc. exact (compare_lt_trans _ _ _ E Hac).
Qed.

End StringOrder.

Module OrderFacts.
Import Order.

Lemma StronglySorted_weaken {A : Type} (R S : A -> A -> Prop) (l : list A) :
  (forall a b, R a b -> S a b) -> StronglySorted R l -> StronglySorted S l.
Proof.
  intros HRS. induction 1 as [|x l Hl IH Hx]; constructor; auto.
  eapply Forall_impl; [|exact Hx]. auto.
Qed.

Section Sort.
Context {A : Type} (before : A -> A -> bool).
Hypothesis before_total : forall a b, before a b = false -> before b a = true.
Hypothesis before_trans :
  forall a b c, before a b = true -> before b c = true -> before a c = true.

Let R (a b : A) : Prop := before a b = true.

Lemma insert_by_perm (x : A) (l : list A) :
  Permutation (insert_by before x l) (x :: l).
Proof.
  induction l as [|y l IH]; simpl; [reflexivity|].
  destruct (before x y); [reflexivity|].
  rewrite IH. apply perm_swap.
Qed.

Lemma sort_by_perm (l : list A) : Permutation (sort_by before l) l.
Proof.
  induction l as [|x l IH]; simpl; [reflexivity|].
  rewrite insert_by_perm. now constructor.
Qed.

Lemma insert_by_sorted (x : A) (l : list A) :
  StronglySorted R l -> StronglySorted R (insert_by before x l).
Proof.
  induction 1 as [|y l Hl IH Hy]; simpl.
  - repeat constructor.
  - destruct (before x y) eqn:Hxy.
    + constructor; [now constructor|].
      constructor; [exact Hxy|].
      eapply Forall_impl; [|exact Hy].
      intros z Hz. exact (before_trans _ _ _ Hxy Hz).
    + constructor; [exact IH|].
      eapply Permutation_Forall; [symmetry; apply insert_by_perm|].
      constructor; [now apply before_total | exact Hy].
Qed.

Lemma sort_by_sorted (l : list A) : StronglySorted R (sort_by before l).
Proof.
  induction l as [|x l IH]; simpl; [constructor|].
  now apply insert_by_sorted.
Qed.

End Sort.

End OrderFacts.

(* ================================================================== *)
(** * Facts about the two back ends *)
(* ================================================================== *)

Module LedgerFacts.
Import Py Order Ledger StringOrder OrderFacts.

(** The order [ORDER BY date DESC, id DESC] asks for. *)
Definition date_id_desc (a b : row) : Prop :=
  String.compare (date (row_data a)) (date (row_data b)) = Gt
  \/ (date (row_data a) = date (row_data b) /\ rowid b <= rowid a).

Lemma row_before_spec (a b : row) : row_before a b = true <-> date_id_desc a b.
Proof.
  unfold row_before, date_id_desc.
  destruct (String.compare (date (row_data a)) (date (row_data b))) eqn:E.
  - apply String.compare_eq_iff in E. rewrite Z.leb_le.
    split; [intros; right; auto | intros [?|[_ ?]]; [discriminate | assumption]].
  - split; [discriminate|].
    intros [?|[Heq _]]; [discriminate|].
    rewrite Heq, compare_refl in E. discriminate.
  - split; auto.
Qed.

Lemma row_before_total (a b : row) : row_before a b = false -> row_before b a = true.
Proof.
  unfold row_before.
  rewrite (String.compare_antisym (date (row_data b))).
  destruct (String.compare (date (row_data a)) (date (row_data b))); simpl;
    try congruence.
  rewrite Z.leb_gt, Z.leb_le. lia.
Qed.

Lemma row_before_trans (a b c : row) :
  row_before a b = true -> row_before b c = true -> row_before a c = true.
Proof.
  rewrite !row_before_spec. unfold date_id_desc.
  intros [Hab|[Hab Iab]] [Hbc|[Hbc Ibc]].
  - left. exact (compare_gt_trans _ _ _ Hab Hbc).
  - left. now rewrite <- Hbc.
  - left. now rewrite Hab.
  - right. split; [congruence | lia].
Qed.

(** The relational listing holds every row, in the order asked for. *)
Lemma select_ordered_all (db : database) :
  Permutation (select_ordered db) (entries db).
Proof. apply sort_by_perm. Qed.

Lemma select_ordered_sorted (db : database) :
  StronglySorted date_id_desc (select_ordered db).
Proof.
  eapply StronglySorted_weaken; [| apply (sort_by_sorted row_before)].
  - intros a b. apply row_before_spec.
  - exact row_before_total.
  - exact row_before_trans.
Qed.

Lemma doc_before_spec (a b : document) : doc_before a b = true <-> date_desc a b.
Proof.
  unfold doc_before, date_desc.
  destruct (String.compare (date (doc_data a)) (date (doc_data b)));
    split; congruence.
Qed.

Lemma doc_before_total (a b : document) : doc_before a b = false -> doc_before b a = true.
Proof.
  unfold doc_before.
  rewrite (String.compare_antisym (date (doc_data b))).
  destruct (String.compare (date (doc_data a)) (date (doc_data b))); simpl; congruence.
Qed.

Lemma doc_before_trans (a b c : document) :
  doc_before a b = true -> doc_before b c = true -> doc_before a c = true.
Proof. rewrite !doc_before_spec. apply compare_ge_trans. Qed.

Lemma natural_order_find_all (coll : list document) :
  Permutation (natural_order_find coll) coll.
Proof. apply sort_by_perm. Qed.

Lemma natural_order_find_desc (coll : list document) :
  StronglySorted date_desc (natural_order_find coll).
Proof.
  eapply StronglySorted_weaken; [| apply (sort_by_sorted doc_before)].
  - intros a b. apply doc_before_spec.
  - exact doc_before_total.
  - exact doc_before_trans.
Qed.

(** A server that keeps documents of equal date in the collection's order
    answers [find] as the driver's contract says. *)
Definition natural_order : Cursor := {|
  find_sorted := natural_order_find;
  find_sorted_all := natural_order_find_all;
  find_sorted_desc := natural_order_find_desc
|}.

End LedgerFacts.

(* ================================================================== *)
(** * The pesticide recommendation *)
(* ================================================================== *)

Module SchedulerFacts.
Import Py Scheduler.

Lemma date_add_in_range (d n : Z) :
  MINORDINAL <= d + n <= MAXORDINAL -> date_add d n = Ok (d + n).
Proof.
  intros [Hlo Hhi]. unfold date_add.
  apply Z.leb_le in Hlo, Hhi. now rewrite Hlo, Hhi.
Qed.

Lemma date_add_out_of_range (d n : Z) :
  d + n < MINORDINAL \/ MAXORDINAL < d + n -> date_add d n = Raise OverflowError.
Proof.
  intros H. unfold date_add.
  destruct (MINORDINAL <=? d + n) eqn:Hlo; [|reflexivity].
  destruct (d + n <=? MAXORDINAL) eqn:Hhi; [|reflexivity].
  apply Z.leb_le in Hlo, Hhi. lia.
Qed.

Lemma date_sub_spec (d n : Z) :
  date_sub d n =
  if (MINORDINAL <=? d - n) && (d - n <=? MAXORDINAL) then Ok (d - n)
  else Raise OverflowError.
Proof. reflexivity. Qed.

(** Case analysis on the next comparison of the goal. *)
Ltac split_test :=
  match goal with
  | |- context [?a <=? ?b] =>
      let E := fresh "E" in
      destruct (a <=? b) eqn:E; [apply Z.leb_le in E | apply Z.leb_gt in E]
  end.

(** The loop returns the first item that is due, in schedule order, and the
    sentinel when none is; this holds for any table. *)
Lemma first_due_find {B : Builtins} (sowing_date from_date : Z) (schedule : list item) :
  Forall (fun it => MINORDINAL <= sowing_date + days_after_sowing it <= MAXORDINAL)
         schedule ->
  first_due sowing_date from_date schedule =
  Ok match find (fun it => from_date <=? sowing_date + days_after_sowing it) schedule with
     | Some it => Due (isoformat (sowing_date + days_after_sowing it)) it
     | None => no_upcoming
     end.
Proof.
  induction 1 as [|it rest Hit _ IH]; simpl; [reflexivity|].
  rewrite (date_add_in_range _ _ Hit). simpl.
  destruct (from_date <=? sowing_date + days_after_sowing it); [reflexivity | exact IH].
Qed.

(** Whatever the crop, the schedule is one of the two tables. *)
Lemma schedule_cases {B : Builtins} (crop : string) :
  get_pesticide_schedule crop = Wheat \/ get_pesticide_schedule crop = Rice.
Proof.
  unfold get_pesticide_schedule, SCHEDULES. cbn [lookup].
  destruct (String.eqb "Wheat" _); [now left|].
  destruct (String.eqb "Rice" _); [now right | now left].
Qed.

Lemma schedule_offsets {B : Builtins} (crop : string) :
  Forall (fun it => 7 < days_after_sowing it) (get_pesticide_schedule crop).
Proof.
  destruct (schedule_cases crop) as [-> | ->]; repeat constructor.
Qed.

(** A date of the calendar. *)
Definition in_calendar (o : Z) : bool :=
  (MINORDINAL <=? o) && (o <=? MAXORDINAL).

(** The items whose due date the loop computes: those that are not due, up
    to the first one that is, and that one. *)
Fixpoint examined (sowing_date from_date : Z) (schedule : list item) : list item :=
  match schedule with
  | [] => []
  | it :: rest =>
      it :: (if from_date <=? sowing_date + days_after_sowing it
             then []
             else examined sowing_date from_date rest)
  end.

(** The loop on any table: the first item that is due, or the sentinel,
    when the due dates it computes on the way exist; the error of the date
    arithmetic otherwise. *)
Lemma first_due_examined {B : Builtins} (sowing_date from_date : Z) (schedule : list item) :
  first_due sowing_date from_date schedule =
  if forallb (fun it => in_calendar (sowing_date + days_after_sowing it))
             (examined sowing_date from_date schedule)
  then Ok match find (fun it => from_date <=? sowing_date + days_after_sowing it) schedule with
          | Some it => Due (isoformat (sowing_date + days_after_sowing it)) it
          | None => no_upcoming
          end
  else Raise OverflowError.
Proof.
  induction schedule as [|it rest IH]; [reflexivity|].
  cbn [first_due examined find forallb]. unfold date_add. fold (in_calendar (sowing_date + days_after_sowing it)).
  destruct (in_calendar (sowing_date + days_after_sowing it)); cbn [bind andb]; [|reflexivity].
  destruct (from_date <=? sowing_date + days_after_sowing it); [reflexivity | exact IH].
Qed.

(** C9, as the code has it: for every crop and every fromDate the function
    takes sowingDate = fromDate - 7 days and goes through the schedule in
    order, computing each item's due date as sowingDate + daysAfterSowing,
    up to the first item whose due date is on or after fromDate.  When the
    sowing date and the due dates computed on the way are dates of the
    calendar (0001-01-01 to 9999-12-31) it returns that first item with its
    due date, and the "no upcoming tasks" sentinel when no item qualifies;
    otherwise the date arithmetic raises OverflowError. *)
Theorem next_recommendation_first_examined {B : Builtins} (crop : string) (from_date : Z) :
  let schedule := get_pesticide_schedule (str_strip (or_wheat crop)) in
  let sowing_date := from_date - 7 in
  next_pesticide_recommendation crop from_date =
  if in_calendar sowing_date
     && forallb (fun it => in_calendar (sowing_date + days_after_sowing it))
                (examined sowing_date from_date schedule)
  then Ok match find (fun it => from_date <=? sowing_date + days_after_sowing it) schedule with
          | Some it => Due (isoformat (sowing_date + days_after_sowing it)) it
          | None => no_upcoming
          end
  else Raise OverflowError.
Proof.
  intros schedule sowing_date. subst schedule sowing_date.
  unfold next_pesticide_recommendation. rewrite date_sub_spec.
  fold (in_calendar (from_date - 7)).
  destruct (in_calendar (from_date - 7)); cbn [bind andb]; [|reflexivity].
  apply first_due_examined.
Qed.

(** The claim as stated fails on the first days of the calendar: the sowing
    date of 0001-01-01 does not exist, and the subtraction raises. *)
Lemma next_recommendation_year_one :
  valid_date 1 /\
  next_pesticide_recommendation (B := Reference.builtins) "Wheat" 1 = Raise OverflowError.
Proof. split; [unfold valid_date, MINORDINAL, MAXORDINAL; lia | reflexivity]. Qed.

(** Close to the end of the calendar the first Wheat item is still
    returned, although the due dates of the later items do not exist: the
    loop stops before it computes them. *)
Example next_recommendation_last_day :
  next_pesticide_recommendation (B := Reference.builtins) "Wheat" 3652056 =
  Ok (Due "9999-12-31"
          {| days_after_sowing := 10; pesticide := "Herbicide A"; note := "Weed control" |}).
Proof. vm_compute. reflexivity. Qed.

Example next_recommendation_2024 :
  next_pesticide_recommendation (B := Reference.builtins) "Wheat" 738886 =
  Ok (Due "2024-01-04"
          {| days_after_sowing := 10; pesticide := "Herbicide A"; note := "Weed control" |}).
Proof. vm_compute. reflexivity. Qed.

(** C10, as the code has it: for every crop and every fromDate the schedule
    is not empty and its first item has days_after_sowing above the 7-day
    offset, so the first item is always the one that is due: the result is
    that item with due date fromDate + (days_after_sowing - 7) whenever
    fromDate - 7 days and that due date are dates of the calendar, and an
    OverflowError of the date arithmetic otherwise; it is never the
    "No upcoming tasks in schedule" sentinel. *)
Theorem next_recommendation_is_first_item {B : Builtins} (crop : string) (from_date : Z) :
  exists (it : item) (rest : list item),
    get_pesticide_schedule (str_strip (or_wheat crop)) = it :: rest
    /\ 7 < days_after_sowing it
    /\ next_pesticide_recommendation crop from_date =
       (if (MINORDINAL <=? from_date - 7)
           && (from_date + (days_after_sowing it - 7) <=? MAXORDINAL)
        then Ok (Due (isoformat (from_date + (days_after_sowing it - 7))) it)
        else Raise OverflowError)
    /\ next_pesticide_recommendation crop from_date <> Ok no_upcoming.
Proof.
  assert (Hcases := schedule_cases (str_strip (or_wheat crop))).
  assert (Hshape : exists it rest,
             get_pesticide_schedule (str_strip (or_wheat crop)) = it :: rest
             /\ 7 < days_after_sowing it).
  { destruct Hcases as [-> | ->]; do 2 eexists; split; try reflexivity; simpl; lia. }
  destruct Hshape as (it & rest & Hsched & Hoff).
  exists it, rest. split; [exact Hsched|]. split; [exact Hoff|].
  assert (Heq : next_pesticide_recommendation crop from_date =
       (if (MINORDINAL <=? from_date - 7)
           && (from_date + (days_after_sowing it - 7) <=? MAXORDINAL)
        then Ok (Due (isoformat (from_date + (days_after_sowing it - 7))) it)
        else Raise OverflowError)).
  { unfold next_pesticide_recommendation. rewrite Hsched, date_sub_spec.
    cbn [first_due]. unfold date_add.
    replace (from_date + (days_after_sowing it - 7))
      with (from_date - 7 + days_after_sowing it) by lia.
    repeat first [ progress cbn [bind andb] | split_test ];
      try reflexivity; lia. }
  split; [exact Heq|].
  rewrite Heq. unfold no_upcoming.
  destruct ((MINORDINAL <=? from_date - 7)
            && (from_date + (days_after_sowing it - 7) <=? MAXORDINAL)); discriminate.
Qed.

(** The claim as stated fails on the last days of the calendar: the due date
    of the first Rice item, eight days after 9999-12-31, does not exist. *)
Lemma next_recommendation_year_9999 :
  valid_date 3652059 /\
  next_pesticide_recommendation (B := Reference.builtins) "Rice" 3652059
  = Raise OverflowError.
Proof. split; [unfold valid_date, MINORDINAL, MAXORDINAL; lia | reflexivity]. Qed.

End SchedulerFacts.

(* ================================================================== *)
(** * The expenses handlers *)
(* ================================================================== *)

Module LedgerClaims.
Import Py Order Ledger LedgerFacts.

(** ** Listing *)

(** Under the relational back end the listing holds every stored row, by
    date descending and, within a date, by id descending. *)
Lemma relational_listing_ordered {C : Cursor} (db : database) :
  exists listed : list row,
    api_list_entries (Relational db) = Json 200 (JDict [("entries", JList (map row_json listed))])
    /\ Permutation listed (entries db)
    /\ StronglySorted date_id_desc listed.
Proof.
  exists (select_ordered db). split; [reflexivity|].
  split; [apply select_ordered_all | apply select_ordered_sorted].
Qed.

(** Under the document back end it holds every stored document, by date
    descending; nothing is said within a date. *)
Lemma document_listing_by_date {C : Cursor} (coll : list document) :
  exists listed : list document,
    api_list_entries (Document coll) = Json 200 (JDict [("entries", JList (map doc_json listed))])
    /\ Permutation listed coll
    /\ StronglySorted date_desc listed.
Proof.
  exists (find_sorted coll). split; [reflexivity|].
  split; [apply find_sorted_all | apply find_sorted_desc].
Qed.

Definition first_id : string := "65a000000000000000000001".
Definition second_id : string := "65a000000000000000000002".

Definition at_request (object_id : string) : environment :=
  {| utc_today := "2024-06-01"; new_object_id := object_id |}.

Definition same_day : payload :=
  {| p_date := Some "2024-01-01"; p_type := Some "income"; p_category := None;
     p_amount := Some (JInt 10); p_note := None |}.

Definition two_same_day : list request :=
  [ AddEntry (at_request first_id) same_day; AddEntry (at_request second_id) same_day ].

(** C1 at a failing input: two entries of the same date are added, in this
    order, to an empty store.  The relational back end lists the later id
    first.  The document back end sorts on date alone: a server that keeps
    equal dates in collection order lists the earlier id first, so ties are
    not broken by id descending and the two back ends disagree. *)
Theorem document_listing_leaves_ties :
  let documents :=
    serve (B := Reference.builtins) (C := natural_order) (Document []) two_same_day in
  let rows :=
    serve (B := Reference.builtins) (C := natural_order) (Relational empty_database)
          two_same_day in
  api_list_entries (C := natural_order) documents =
    Json 200 (JDict [("entries", JList
      [ JDict [("date", JStr "2024-01-01"); ("type", JStr "income");
               ("category", JStr "general"); ("amount", JFloat 10);
               ("note", JStr ""); ("id", JStr first_id)];
        JDict [("date", JStr "2024-01-01"); ("type", JStr "income");
               ("category", JStr "general"); ("amount", JFloat 10);
               ("note", JStr ""); ("id", JStr second_id)] ])])
  /\ api_list_entries (C := natural_order) rows =
    Json 200 (JDict [("entries", JList
      [ JDict [("id", JInt 2); ("date", JStr "2024-01-01"); ("type", JStr "income");
               ("category", JStr "general"); ("amount", JFloat 10); ("note", JStr "")];
        JDict [("id", JInt 1); ("date", JStr "2024-01-01"); ("type", JStr "income");
               ("category", JStr "general"); ("amount", JFloat 10); ("note", JStr "")] ])])
  /\ String.compare first_id second_id = Lt.
Proof. repeat split; vm_compute; reflexivity. Qed.

(** ** Adding *)

(** C2 on the code: when [float()] raises on the amount, nothing catches the
    exception: it leaves the handler as it is, under either back end, and
    the store is unchanged.  No JSON error payload is built. *)
Theorem add_entry_uncoercible_amount_escapes
  {B : Builtins} (e : environment) (p : payload) (s : store) (ex : exn) :
  py_float (default (JInt 0) (p_amount p)) = Raise ex ->
  api_add_entry e p s = (Unhandled ex, s).
Proof. intros H. unfold api_add_entry. now rewrite H. Qed.

Definition bad_amount : payload :=
  {| p_date := None; p_type := Some "expense"; p_category := Some "seeds";
     p_amount := Some (JStr "abc"); p_note := None |}.

Lemma add_entry_uncoercible_amount_witness :
  py_float (B := Reference.builtins) (default (JInt 0) (p_amount bad_amount))
  = Raise ValueError
  /\ api_add_entry (B := Reference.builtins) (at_request first_id) bad_amount
       (Relational empty_database)
     = (Unhandled ValueError, Relational empty_database).
Proof.
  split; [reflexivity|].
  apply (add_entry_uncoercible_amount_escapes (B := Reference.builtins)).
  reflexivity.
Defined.

(** What an accepted request stores: the coerced amount, the defaults for
    the fields that are absent. *)
Definition stored_fields (e : environment) (p : payload) (a : float) : fields :=
  {| date := date_or_today e (p_date p);
     type := default "expense" (p_type p);
     category := default "general" (p_category p);
     amount := a;
     note := default "" (p_note p) |}.

Lemma add_entry_stores_coerced_amount
  {B : Builtins} (e : environment) (p : payload) (s s' : store) (a : float)
  (status : Z) (body : json) :
  py_float (default (JInt 0) (p_amount p)) = Ok a ->
  api_add_entry e p s = (Json status body, s') ->
  match s, s' with
  | Relational db, Relational db' =>
      entries db' = entries db
        ++ [ {| rowid := largest_rowid db + 1;
                row_data := as_stored (stored_fields e p a) |} ]
  | Document coll, Document coll' =>
      coll' = coll ++ [ {| oid := new_object_id e; doc_data := stored_fields e p a |} ]
  | _, _ => False
  end.
Proof.
  intros Ha. unfold api_add_entry. rewrite Ha.
  destruct s as [db | coll].
  - destruct (sqlite_insert db _) as [db'|ex] eqn:Hins; [|discriminate].
    apply sqlite_insert_accepted in Hins. destruct Hins as (_ & _ & _ & ->).
    intros H. inversion H; subst. reflexivity.
  - unfold insert_one.
    destruct (existsb _ coll); [discriminate|].
    intros H. inversion H; subst. reflexivity.
Qed.

(** C5 on the code: under the relational back end a successful request
    creates a row with a fresh rowid, and the response is [{"status": "ok"}]
    alone: the identifier is not returned. *)
Theorem relational_add_returns_no_id
  {B : Builtins} (e : environment) (p : payload) (db : database) (s' : store)
  (status : Z) (body : json) :
  api_add_entry e p (Relational db) = (Json status body, s') ->
  status = 200
  /\ body = JDict [("status", JStr "ok")]
  /\ exists f : fields,
       s' = Relational
              {| entries := entries db ++ [ {| rowid := largest_rowid db + 1; row_data := f |} ];
                 sqlite_sequence := largest_rowid db + 1 |}.
Proof.
  unfold api_add_entry.
  destruct (py_float _) as [a|ex]; [|discriminate].
  destruct (sqlite_insert db _) as [db'|ex] eqn:Hins; [|discriminate].
  apply sqlite_insert_accepted in Hins. destruct Hins as (_ & _ & _ & ->).
  intros H. inversion H; subst. repeat split. eexists. reflexivity.
Qed.

Definition seeds : payload :=
  {| p_date := Some "2024-03-05"; p_type := Some "expense"; p_category := Some "seeds";
     p_amount := Some (JStr "12.5"); p_note := None |}.

Lemma relational_add_returns_no_id_witness :
  exists s' : store,
    api_add_entry (B := Reference.builtins) (at_request first_id) seeds
      (Relational empty_database)
    = (Json 200 (JDict [("status", JStr "ok")]), s')
    /\ exists f : fields,
         s' = Relational {| entries := [ {| rowid := 1; row_data := f |} ];
                            sqlite_sequence := 1 |}.
Proof.
  eexists. split; [reflexivity|].
  exact (proj2 (proj2
    (relational_add_returns_no_id (B := Reference.builtins)
       (at_request first_id) seeds empty_database _ 200
       (JDict [("status", JStr "ok")]) eq_refl))).
Defined.

(** The document back end does return it: the identifier of the stored
    document, as a string. *)
Lemma document_add_returns_id
  {B : Builtins} (e : environment) (p : payload) (coll : list document) (s' : store)
  (status : Z) (body : json) :
  api_add_entry e p (Document coll) = (Json status body, s') ->
  status = 200
  /\ body = JDict [("status", JStr "ok"); ("id", JStr (new_object_id e))]
  /\ exists f : fields,
       s' = Document (coll ++ [ {| oid := new_object_id e; doc_data := f |} ]).
Proof.
  unfold api_add_entry.
  destruct (py_float _) as [a|ex]; [|discriminate].
  unfold insert_one.
  destruct (existsb _ coll); [discriminate|].
  intros H. inversion H; subst. repeat split. eexists. reflexivity.
Qed.

(** ** Deleting *)

Lemma filter_none_removed (n : Z) (l : list row) :
  (forall r, In r l -> rowid r <> n) ->
  filter (fun r => negb (rowid r =? n)) l = l.
Proof.
  induction l as [|r l IH]; simpl; intros H; [reflexivity|].
  destruct (rowid r =? n) eqn:E.
  - apply Z.eqb_eq in E. exfalso. apply (H r); auto.
  - simpl. f_equal. apply IH. intros r' Hr'. apply H. auto.
Qed.

Lemma delete_one_absent (target : string) (coll : list document) :
  (forall d, In d coll -> oid d <> target) -> delete_one coll target = coll.
Proof.
  induction coll as [|d coll IH]; simpl; intros H; [reflexivity|].
  destruct (String.eqb (oid d) target) eqn:E.
  - apply String.eqb_eq in E. exfalso. apply (H d); auto.
  - f_equal. apply IH. intros d' Hd'. apply H. auto.
Qed.

(** Deleting an id that fits SQLite's INTEGER and names no row answers
    [{"deleted": id}] and leaves the table as it was. *)
Lemma relational_delete_absent
  {B : Builtins} (entry_id : string) (n : Z) (db : database) :
  int_of_str entry_id = Some n ->
  INT64_MIN <= n <= INT64_MAX ->
  (forall r, In r (entries db) -> rowid r <> n) ->
  api_delete_entry entry_id (Relational db)
  = (Json 200 (JDict [("deleted", JInt n)]), Relational db).
Proof.
  intros Hn [Hlo Hhi] Habsent. unfold api_delete_entry, sqlite_delete. rewrite Hn.
  apply Z.leb_le in Hlo, Hhi. rewrite Hlo, Hhi. cbn [andb].
  rewrite filter_none_removed by exact Habsent.
  destruct db; reflexivity.
Qed.

(** So does deleting a well-formed ObjectId that names no document. *)
Lemma document_delete_absent
  {B : Builtins} (entry_id target : string) (coll : list document) :
  oid_of_str entry_id = Some target ->
  (forall d, In d coll -> oid d <> target) ->
  api_delete_entry entry_id (Document coll)
  = (Json 200 (JDict [("deleted", JStr entry_id)]), Document coll).
Proof.
  intros Ht Habsent. unfold api_delete_entry. rewrite Ht.
  now rewrite delete_one_absent.
Qed.

(** C3 on the code: an id that [int()] parses but that does not fit SQLite's
    64-bit INTEGER names no row, and deleting it is not a silent success:
    binding the parameter raises [OverflowError] outside the [try], and the
    exception leaves the handler. *)
Theorem relational_delete_wide_id_escapes
  {B : Builtins} (entry_id : string) (n : Z) (db : database) :
  int_of_str entry_id = Some n ->
  n < INT64_MIN \/ INT64_MAX < n ->
  api_delete_entry entry_id (Relational db) = (Unhandled OverflowError, Relational db).
Proof.
  intros Hn Hwide. unfold api_delete_entry, sqlite_delete. rewrite Hn.
  destruct (INT64_MIN <=? n) eqn:Hlo; [|reflexivity].
  destruct (n <=? INT64_MAX) eqn:Hhi; [|reflexivity].
  apply Z.leb_le in Hlo, Hhi. lia.
Qed.

Lemma relational_delete_wide_id_witness :
  int_of_str (Builtins := Reference.builtins) "9223372036854775808"
  = Some 9223372036854775808
  /\ INT64_MAX < 9223372036854775808
  /\ api_delete_entry (B := Reference.builtins) "9223372036854775808"
       (Relational empty_database)
     = (Unhandled OverflowError, Relational empty_database).
Proof.
  split; [reflexivity|]. split; [reflexivity|].
  apply (relational_delete_wide_id_escapes (B := Reference.builtins)
           "9223372036854775808" 9223372036854775808).
  - reflexivity.
  - right. reflexivity.
Defined.

(** C4: under the relational back end, for every id string that [int()]
    does not parse, the handler answers the JSON error ["invalid id"] with
    status 400 (a reported error, no exception leaves it) and the stored
    entries are unchanged. *)
Theorem relational_delete_invalid_id
  {B : Builtins} (entry_id : string) (db : database) :
  int_of_str entry_id = None ->
  api_delete_entry entry_id (Relational db)
  = (Json 400 (JDict [("error", JStr "invalid id")]), Relational db).
Proof. intros Hn. unfold api_delete_entry. now rewrite Hn. Qed.

Lemma relational_delete_invalid_id_witness :
  int_of_str (Builtins := Reference.builtins) "abc" = None
  /\ api_delete_entry (B := Reference.builtins) "abc" (Relational empty_database)
     = (Json 400 (JDict [("error", JStr "invalid id")]), Relational empty_database).
Proof.
  split; [reflexivity|].
  apply (relational_delete_invalid_id (B := Reference.builtins)). reflexivity.
Defined.

(** ** The aggregates of the expenses page *)










(** ** What the store accepts *)

Definition loan : payload :=
  {| p_date := Some "2024-02-01"; p_type := Some "loan"; p_category := None;
     p_amount := Some (JInt 5); p_note := None |}.

(** C7 at a failing input: the document back end stores an entry whose type
    is neither 'expense' nor 'income'; the relational back end refuses the
    same request through its CHECK constraint. *)
Theorem document_add_accepts_any_type :
  api_add_entry (B := Reference.builtins) (at_request first_id) loan (Document [])
  = (Json 200 (JDict [("status", JStr "ok"); ("id", JStr first_id)]),
     Document [ {| oid := first_id;
                   doc_data := {| date := "2024-02-01"; type := "loan";
                                  category := "general"; amount := 5; note := "" |} |} ])
  /\ type_check "loan" = false
  /\ api_add_entry (B := Reference.builtins) (at_request first_id) loan
       (Relational empty_database)
     = (Unhandled IntegrityError, Relational empty_database).
Proof. split; [|split]; vm_compute; reflexivity. Qed.

(** A row the table may hold. *)
Definition row_valid (r : row) : Prop :=
  (type (row_data r) = "expense" \/ type (row_data r) = "income")
  /\ PrimFloat.is_nan (amount (row_data r)) = false.

Lemma type_check_spec (t : string) :
  type_check t = true <-> t = "expense" \/ t = "income".
Proof.
  unfold type_check. rewrite orb_true_iff, !String.eqb_eq. reflexivity.
Qed.

Lemma real_column_not_nan (a : float) :
  PrimFloat.is_nan a = false -> PrimFloat.is_nan (real_column a) = false.
Proof.
  intros Ha. unfold real_column. destruct (PrimFloat.eqb a 0); [reflexivity | exact Ha].
Qed.

Lemma sqlite_insert_valid (db db' : database) (f : fields) :
  Forall row_valid (entries db) ->
  sqlite_insert db f = Ok db' ->
  Forall row_valid (entries db').
Proof.
  intros Hdb Hins.
  apply sqlite_insert_accepted in Hins. destruct Hins as (_ & Ha & Ht & ->).
  cbn [entries]. apply Forall_app. split; [exact Hdb|].
  constructor; [|constructor].
  split; cbn [row_data as_stored type amount];
    [now apply type_check_spec | now apply real_column_not_nan].
Qed.

Lemma sqlite_delete_valid (db db' : database) (n : Z) :
  Forall row_valid (entries db) ->
  sqlite_delete db n = Ok db' ->
  Forall row_valid (entries db').
Proof.
  intros Hdb. unfold sqlite_delete.
  destruct ((INT64_MIN <=? n) && (n <=? INT64_MAX)); [|discriminate].
  intros H. inversion H; subst. cbn [entries].
  rewrite Forall_forall in *. intros r Hr.
  apply filter_In in Hr. now apply Hdb.
Qed.

Lemma handle_relational_valid {B : Builtins} {C : Cursor} (db : database) (q : request) :
  Forall row_valid (entries db) ->
  exists db', snd (handle (Relational db) q) = Relational db'
              /\ Forall row_valid (entries db').
Proof.
  intros Hdb. destruct q as [e p | | entry_id]; simpl.
  - unfold api_add_entry.
    destruct (py_float _) as [a|ex]; [|now exists db].
    destruct (sqlite_insert db _) as [db'|ex] eqn:Hins; [|now exists db].
    exists db'. split; [reflexivity|]. eapply sqlite_insert_valid; eauto.
  - now exists db.
  - destruct (int_of_str entry_id) as [n|]; [|now exists db].
    destruct (sqlite_delete db n) as [db'|ex] eqn:Hdel; [|now exists db].
    exists db'. split; [reflexivity|]. eapply sqlite_delete_valid; eauto.
Qed.

(** Under the relational back end the invariant of C7 does hold after any
    sequence of requests. *)
Lemma relational_entries_valid {B : Builtins} {C : Cursor} (qs : list request) (db : database) :
  Forall row_valid (entries db) ->
  exists db', serve (Relational db) qs = Relational db'
              /\ Forall row_valid (entries db').
Proof.
  revert db. induction qs as [|q qs IH]; intros db Hdb; simpl.
  - now exists db.
  - destruct (handle_relational_valid db q Hdb) as (db1 & Hstep & Hvalid).
    unfold serve in *. simpl. rewrite Hstep. now apply IH.
Qed.

End LedgerClaims.

(* ================================================================== *)
(** * The scheme filter *)
(* ================================================================== *)

Module SchemesClaims.
Import Py Schemes.

(** The text of a record's field; empty when the field is absent. *)
Definition text_field (key : string) (item : json) : string :=
  match item with
  | JDict kv =>
      match get key kv with
      | Some (JStr s) => s
      | _ => ""
      end
  | _ => ""
  end.



(** The claim's test on one field: the normalised parameter is blank, or the
    field equals it up to case. *)
Definition blank_or_equal {B : Builtins} (key wanted : string) (item : json) : bool :=
  String.eqb wanted "" || String.eqb (str_lower (text_field key item)) wanted.

Definition keeps {B : Builtins} (state district : string) (item : json) : bool :=
  blank_or_equal "state" state item && blank_or_equal "district" district item.





Lemma schemes_file_absent {B : Builtins} (state district : string) :
  api_schemes None state district = Json 200 (JDict [("schemes", JList [])]).
Proof. reflexivity. Qed.






Definition goa : json :=
  JDict [("name", JStr "Krishi Card"); ("state", JStr "Goa"); ("district", JStr "North Goa")].


End SchemesClaims.

(* ================================================================== *)
(** * Worked examples *)
(* ================================================================== *)

Module Examples.
Import Py Scheduler Schemes Ledger LedgerFacts LedgerClaims.

#[local] Existing Instance Reference.builtins.
#[local] Existing Instance natural_order.

Definition at_day (day : string) (kind : string) (value : json) : payload :=
  {| p_date := Some day; p_type := Some kind; p_category := None;
     p_amount := Some value; p_note := None |}.

(** Entries dated 2024-01-01 and 2024-01-02, added in that order: both back
    ends list 2024-01-02 first. *)
Definition two_days : list request :=
  [ AddEntry (at_request first_id) (at_day "2024-01-01" "expense" (JStr "40.25"));
    AddEntry (at_request second_id) (at_day "2024-01-02" "income" (JFloat 100.5)) ].

Example relational_two_days :
  map (fun r => (rowid r, date (row_data r)))
      (select_ordered
         match serve (Relational empty_database) two_days with
         | Relational db => db
         | Document _ => empty_database
         end)
  = [ (2, "2024-01-02"); (1, "2024-01-01") ].
Proof. vm_compute. reflexivity. Qed.

Example document_two_days :
  match serve (Document []) two_days with
  | Document coll => map (fun d => (oid d, date (doc_data d))) (find_sorted coll)
  | Relational _ => []
  end
  = [ (second_id, "2024-01-02"); (first_id, "2024-01-01") ].
Proof. vm_compute. reflexivity. Qed.

Example page_two_days :
  let v := expenses_page (serve (Relational empty_database) two_days) in
  (total_income v, total_expense v, profit v)
  = (NFloat 100.5, NFloat 40.25, NFloat 60.25).
Proof. vm_compute. reflexivity. Qed.

Example page_empty :
  let v := expenses_page (Document []) in
  (total_income v, total_expense v, profit v) = (NInt 0, NInt 0, NInt 0).
Proof. reflexivity. Qed.

Example delete_then_list :
  fst (handle (serve (Relational empty_database) (two_days ++ [DeleteEntry " 2 "]))
              ListEntries)
  = Json 200 (JDict [("entries", JList
      [ JDict [("id", JInt 1); ("date", JStr "2024-01-01"); ("type", JStr "expense");
               ("category", JStr "general"); ("amount", JFloat 40.25);
               ("note", JStr "")] ])]).
Proof. vm_compute. reflexivity. Qed.

Example delete_malformed_object_id :
  fst (api_delete_entry "42" (Document []))
  = Json 400 (JDict [("error", JStr
      "'42' is not a valid ObjectId, it must be a 12-byte input or a 24-character hex string")]).
Proof. reflexivity. Qed.

Example wheat_on_2024_01_01 :
  next_pesticide_recommendation "Wheat" 738886
  = Ok (Due "2024-01-04"
            {| days_after_sowing := 10; pesticide := "Herbicide A";
               Scheduler.note := "Weed control" |}).
Proof. reflexivity. Qed.

Example unknown_crop_is_wheat :
  get_pesticide_schedule "Barley" = Wheat /\ get_pesticide_schedule " Rice " = Rice.
Proof. split; reflexivity. Qed.

(** The sentinel is what the loop returns once every item is overdue; the
    shipped tables never get there from a 7-day offset. *)
Example overdue_schedule :
  first_due 738786 738886 Wheat = Ok no_upcoming.
Proof. reflexivity. Qed.

Example reference_int :
  map Reference.parse_int [ "42"; " -7 "; "+1_000"; "1__0"; "abc"; "" ]
  = [ Some 42; Some (-7); Some 1000; None; None; None ].
Proof. reflexivity. Qed.

Example reference_float :
  map Reference.parse_float [ "12.5"; "1e3"; ".5"; "abc"; "1e" ]
  = [ Some 12.5%float; Some 1000%float; Some 0.5%float; None; None ].
Proof. vm_compute. reflexivity. Qed.

Example reference_isoformat :
  map Reference.iso [ 1; 730179; 738886; 3652059 ]
  = [ "0001-01-01"; "2000-02-29"; "2024-01-01"; "9999-12-31" ].
Proof. vm_compute. reflexivity. Qed.

End Examples.

(* ================================================================== *)
(** * The ledger over sequences of requests *)
(* ================================================================== *)

Module LedgerInvariants.
Import Py Order Ledger OrderFacts LedgerFacts LedgerClaims.

(** What holds of the [entries] table from its creation on: rowids grow
    along the table, lie between 1 and the counter of [sqlite_sequence],
    and the counter fits SQLite's INTEGER. *)
Record table_ok (db : database) : Prop := {
  ids_increasing : StronglySorted Z.lt (map rowid (entries db));
  ids_bounded : Forall (fun r => 1 <= rowid r <= sqlite_sequence db) (entries db);
  sequence_bounded : 0 <= sqlite_sequence db <= INT64_MAX
}.

Lemma empty_table_ok : table_ok empty_database.
Proof.
  split; simpl; [constructor | constructor | unfold INT64_MAX; lia].
Qed.

Lemma sorted_snoc {A : Type} (R : A -> A -> Prop) (l : list A) (x : A) :
  StronglySorted R l -> Forall (fun y => R y x) l -> StronglySorted R (l ++ [x]).
Proof.
  induction 1 as [|y l Hl IH Hy]; simpl; intros Hx.
  - repeat constructor.
  - inversion Hx; subst. constructor; [now apply IH|].
    apply Forall_app. split; [exact Hy | now repeat constructor].
Qed.

Lemma sorted_lt_nodup (l : list Z) : StronglySorted Z.lt l -> NoDup l.
Proof.
  induction 1 as [|x l Hl IH Hx]; constructor; [|exact IH].
  intros Hin. rewrite Forall_forall in Hx. specialize (Hx x Hin). lia.
Qed.

Lemma sorted_ids_filter (p : row -> bool) (l : list row) :
  StronglySorted Z.lt (map rowid l) -> StronglySorted Z.lt (map rowid (filter p l)).
Proof.
  induction l as [|r l IH]; simpl; intros H; [constructor|].
  inversion H as [|? ? Hl Hr]; subst.
  destruct (p r); simpl; [|now apply IH].
  constructor; [now apply IH|].
  rewrite Forall_forall in *. intros z Hz.
  apply Hr. rewrite in_map_iff in *. destruct Hz as (r' & <- & Hin).
  apply filter_In in Hin. exists r'. tauto.
Qed.

Lemma largest_rowid_bounded (seq : Z) (l : list row) :
  Forall (fun r => rowid r <= seq) l ->
  fold_right (fun r m => Z.max (rowid r) m) seq l = seq.
Proof.
  induction 1 as [|r l Hr _ IH]; simpl; [reflexivity|]. rewrite IH. lia.
Qed.

Lemma largest_rowid_ok (db : database) :
  table_ok db -> largest_rowid db = sqlite_sequence db.
Proof.
  intros [_ Hb _]. apply largest_rowid_bounded.
  eapply Forall_impl; [|exact Hb]. simpl. lia.
Qed.

(** An accepted INSERT appends one row whose rowid is the counter plus one. *)
Lemma sqlite_insert_ok (db db' : database) (f : fields) :
  table_ok db ->
  sqlite_insert db f = Ok db' ->
  table_ok db'
  /\ sqlite_sequence db' = sqlite_sequence db + 1
  /\ entries db'
     = entries db ++ [ {| rowid := sqlite_sequence db + 1; row_data := as_stored f |} ].
Proof.
  intros Hok Hins. pose proof (largest_rowid_ok db Hok) as Hlast.
  destruct Hok as [Hs Hb Hq].
  apply sqlite_insert_accepted in Hins. rewrite Hlast in Hins.
  destruct Hins as (Hfull & _ & _ & ->). cbn [entries sqlite_sequence].
  split; [|split; reflexivity].
  split; cbn [entries sqlite_sequence].
  - rewrite map_app. apply sorted_snoc; [exact Hs|].
    rewrite Forall_map. eapply Forall_impl; [|exact Hb]. simpl. lia.
  - apply Forall_app. split.
    + eapply Forall_impl; [|exact Hb]. simpl. lia.
    + repeat constructor; simpl; lia.
  - lia.
Qed.

Lemma sqlite_delete_ok (db db' : database) (n : Z) :
  table_ok db ->
  sqlite_delete db n = Ok db' ->
  table_ok db'
  /\ sqlite_sequence db' = sqlite_sequence db
  /\ entries db' = filter (fun r => negb (rowid r =? n)) (entries db).
Proof.
  intros [Hs Hb Hq]. unfold sqlite_delete.
  destruct ((INT64_MIN <=? n) && (n <=? INT64_MAX)); [|discriminate].
  intros H. inversion H; subst; clear H. cbn [entries sqlite_sequence].
  split; [|split; reflexivity].
  split; cbn [entries sqlite_sequence].
  - now apply sorted_ids_filter.
  - rewrite Forall_forall in *. intros r Hr. apply filter_In in Hr. now apply Hb.
  - exact Hq.
Qed.

Lemma handle_table_ok {B : Builtins} {C : Cursor} (db : database) (q : request) :
  table_ok db ->
  exists db', snd (handle (Relational db) q) = Relational db'
              /\ table_ok db'
              /\ sqlite_sequence db <= sqlite_sequence db'.
Proof.
  intros Hok.
  assert (Hsame : exists db', Relational db = Relational db'
                              /\ table_ok db'
                              /\ sqlite_sequence db <= sqlite_sequence db').
  { exists db. split; [reflexivity|]. split; [exact Hok | lia]. }
  destruct q as [e p | | entry_id]; simpl.
  - unfold api_add_entry.
    destruct (py_float _) as [a|ex]; [|exact Hsame].
    destruct (sqlite_insert db _) as [db'|ex] eqn:Hins; [|exact Hsame].
    destruct (sqlite_insert_ok _ _ _ Hok Hins) as (Hok' & Hseq & _).
    exists db'. split; [reflexivity|]. split; [exact Hok' | lia].
  - exact Hsame.
  - destruct (int_of_str entry_id) as [n|]; [|exact Hsame].
    destruct (sqlite_delete db n) as [db'|ex] eqn:Hdel; [|exact Hsame].
    destruct (sqlite_delete_ok _ _ _ Hok Hdel) as (Hok' & Hseq & _).
    exists db'. split; [reflexivity|]. split; [exact Hok' | lia].
Qed.

Lemma serve_table_ok {B : Builtins} {C : Cursor} (qs : list request) (db : database) :
  table_ok db ->
  exists db', serve (Relational db) qs = Relational db'
              /\ table_ok db'
              /\ sqlite_sequence db <= sqlite_sequence db'.
Proof.
  revert db. induction qs as [|q qs IH]; intros db Hok.
  - exists db. split; [reflexivity|]. split; [exact Hok | lia].
  - destruct (handle_table_ok db q Hok) as (db1 & Hstep & Hok1 & Hle1).
    destruct (IH db1 Hok1) as (db2 & Hrun & Hok2 & Hle2).
    exists db2. unfold serve in *. simpl. rewrite Hstep.
    split; [exact Hrun|]. split; [exact Hok2 | lia].
Qed.

(** From the empty table on, after any sequence of requests, every stored
    row has type 'expense' or 'income' and an amount that is a number. *)
Theorem relational_rows_always_valid {B : Builtins} {C : Cursor} (qs : list request) :
  exists db, serve (Relational empty_database) qs = Relational db
             /\ Forall row_valid (entries db).
Proof. apply relational_entries_valid. constructor. Qed.

(** From the empty table on, after any sequence of requests, the rowids of
    the stored rows are pairwise distinct, grow in insertion order, and lie
    between 1 and the AUTOINCREMENT counter, which fits a signed 64-bit
    integer. *)
Theorem relational_ids_unique {B : Builtins} {C : Cursor} (qs : list request) :
  exists db, serve (Relational empty_database) qs = Relational db
             /\ NoDup (map rowid (entries db))
             /\ StronglySorted Z.lt (map rowid (entries db))
             /\ Forall (fun r => 1 <= rowid r <= sqlite_sequence db) (entries db)
             /\ sqlite_sequence db <= INT64_MAX.
Proof.
  destruct (serve_table_ok qs empty_database empty_table_ok)
    as (db & Hrun & [Hs Hb Hq] & _).
  exists db. split; [exact Hrun|]. split; [now apply sorted_lt_nodup|].
  split; [exact Hs|]. split; [exact Hb | lia].
Qed.

(** Identifiers are never reused: a row added after any further requests,
    deletions included, gets a rowid above every rowid the table held
    before. *)
Theorem relational_ids_never_reused {B : Builtins} {C : Cursor}
  (before after : list request) (e : environment) (p : payload)
  (db1 db3 : database) (status : Z) (body : json) :
  serve (Relational empty_database) before = Relational db1 ->
  api_add_entry e p (serve (Relational db1) after) = (Json status body, Relational db3) ->
  exists (r : row) (rest : list row),
    entries db3 = rest ++ [r]
    /\ forall r0, In r0 (entries db1) -> rowid r0 < rowid r.
Proof.
  intros Hbefore Hadd.
  destruct (serve_table_ok before empty_database empty_table_ok)
    as (db1' & Hrun1 & Hok1 & _).
  rewrite Hbefore in Hrun1. inversion Hrun1; subst db1'; clear Hrun1.
  destruct (serve_table_ok after db1 Hok1) as (db2 & Hrun2 & Hok2 & Hle).
  rewrite Hrun2 in Hadd. unfold api_add_entry in Hadd.
  destruct (py_float _) as [a|ex]; [|discriminate].
  destruct (sqlite_insert db2 _) as [db'|ex] eqn:Hins; [|discriminate].
  inversion Hadd; subst; clear Hadd.
  destruct (sqlite_insert_ok _ _ _ Hok2 Hins) as (_ & _ & Hentries).
  eexists. eexists. split; [exact Hentries|].
  intros r0 Hr0. cbn [rowid].
  destruct Hok1 as [_ Hb _]. rewrite Forall_forall in Hb.
  specialize (Hb r0 Hr0). lia.
Qed.

Lemma relational_ids_never_reused_witness :
  exists (r : row) (rest : list row),
    entries {| entries :=
                 [ {| rowid := 1;
                      row_data := {| date := "2024-01-01"; type := "expense";
                                     category := "general"; amount := 40.25;
                                     note := "" |} |};
                   {| rowid := 3;
                      row_data := {| date := "2024-03-05"; type := "expense";
                                     category := "seeds"; amount := 12.5;
                                     note := "" |} |} ];
               sqlite_sequence := 3 |}
    = rest ++ [r]
    /\ forall r0,
         In r0 [ {| rowid := 1;
                    row_data := {| date := "2024-01-01"; type := "expense";
                                   category := "general"; amount := 40.25;
                                   note := "" |} |};
                 {| rowid := 2;
                    row_data := {| date := "2024-01-02"; type := "income";
                                   category := "general"; amount := 100.5;
                                   note := "" |} |} ] ->
         rowid r0 < rowid r.
Proof.
  exact (relational_ids_never_reused
           (B := Reference.builtins) (C := natural_order)
           Examples.two_days [DeleteEntry "2"] (at_request first_id) seeds
           {| entries :=
                [ {| rowid := 1;
                     row_data := {| date := "2024-01-01"; type := "expense";
                                    category := "general"; amount := 40.25;
                                    note := "" |} |};
                  {| rowid := 2;
                     row_data := {| date := "2024-01-02"; type := "income";
                                    category := "general"; amount := 100.5;
                                    note := "" |} |} ];
              sqlite_sequence := 2 |}
           _ 200 (JDict [("status", JStr "ok")]) eq_refl eq_refl).
Defined.

End LedgerInvariants.

(* ================================================================== *)
(** * Sorting and filtering commute *)
(* ================================================================== *)

Module SortFilter.
Import Order OrderFacts.

Section Commute.
Context {A : Type} (before : A -> A -> bool) (p : A -> bool).
Hypothesis before_total : forall a b, before a b = false -> before b a = true.
Hypothesis before_trans :
  forall a b c, before a b = true -> before b c = true -> before a c = true.

Lemma insert_by_head (x : A) (l : list A) :
  Forall (fun y => before x y = true) l -> insert_by before x l = x :: l.
Proof. destruct 1 as [|y l Hy _]; simpl; [reflexivity | now rewrite Hy]. Qed.

Lemma filter_insert_by_drop (x : A) (l : list A) :
  p x = false -> filter p (insert_by before x l) = filter p l.
Proof.
  intros Hx. induction l as [|y l IH]; simpl; [now rewrite Hx|].
  destruct (before x y); simpl; [now rewrite Hx|].
  now rewrite IH.
Qed.

Lemma filter_insert_by_keep (x : A) (l : list A) :
  StronglySorted (fun a b => before a b = true) l ->
  p x = true ->
  filter p (insert_by before x l) = insert_by before x (filter p l).
Proof.
  intros Hl Hx. induction Hl as [|y l Hl IH Hy]; simpl; [now rewrite Hx|].
  destruct (before x y) eqn:Hxy.
  - assert (Hall : Forall (fun z => before x z = true) (y :: l)).
    { constructor; [exact Hxy|]. eapply Forall_impl; [|exact Hy].
      intros z Hz. exact (before_trans _ _ _ Hxy Hz). }
    rewrite insert_by_head.
    + cbn [filter]. now rewrite Hx.
    + rewrite Forall_forall in *. intros z Hz. apply Hall.
      apply (filter_In p z (y :: l)) in Hz. tauto.
  - simpl. destruct (p y); simpl; [now rewrite Hxy, IH | exact IH].
Qed.

Lemma sort_by_filter (l : list A) :
  filter p (sort_by before l) = sort_by before (filter p l).
Proof.
  induction l as [|x l IH]; simpl; [reflexivity|].
  destruct (p x) eqn:Hx; simpl.
  - rewrite filter_insert_by_keep, IH; auto.
    apply sort_by_sorted; assumption.
  - now rewrite filter_insert_by_drop.
Qed.

End Commute.

End SortFilter.

(* ================================================================== *)
(** * The ledger: what a request leaves behind *)
(* ================================================================== *)

Module LedgerRoundTrips.
Import Py Order Ledger OrderFacts LedgerFacts LedgerClaims.

(** The entries of a listing response. *)
Definition listed (r : response) : list json :=
  match r with
  | Json _ (JDict [(_, JList items)]) => items
  | _ => []
  end.



(** A negative zero, added under the relational back end, is listed as 0.0. *)
Example negative_zero_listed :
  listed (api_list_entries (C := natural_order)
            (snd (api_add_entry (B := Reference.builtins) (at_request first_id)
                    {| p_date := Some "2024-03-05"; p_type := Some "expense";
                       p_category := None; p_amount := Some (JStr "-0");
                       p_note := None |}
                    (Relational empty_database))))
  = [ JDict [("id", JInt 1); ("date", JStr "2024-03-05"); ("type", JStr "expense");
             ("category", JStr "general"); ("amount", JFloat 0); ("note", JStr "")] ].
Proof. vm_compute. reflexivity. Qed.


(** Delete, then list, under the relational back end: for an id that fits
    SQLite's INTEGER the request succeeds, and the listing afterwards is the
    listing before without the rows of that id, the others in the same
    order. *)
Theorem relational_delete_then_list {B : Builtins} {C : Cursor}
  (entry_id : string) (n : Z) (db : database) :
  int_of_str entry_id = Some n ->
  INT64_MIN <= n <= INT64_MAX ->
  exists db',
    api_delete_entry entry_id (Relational db)
    = (Json 200 (JDict [("deleted", JInt n)]), Relational db')
    /\ sqlite_sequence db' = sqlite_sequence db
    /\ listed (api_list_entries (Relational db'))
       = map row_json (filter (fun r => negb (rowid r =? n)) (select_ordered db))
    /\ forall r, In r (select_ordered db') <-> In r (select_ordered db) /\ rowid r <> n.
Proof.
  intros Hn [Hlo Hhi]. unfold api_delete_entry, sqlite_delete. rewrite Hn.
  apply Z.leb_le in Hlo, Hhi. rewrite Hlo, Hhi. cbn [andb].
  eexists. split; [reflexivity|]. split; [reflexivity|].
  assert (Heq : select_ordered
                  {| entries := filter (fun r => negb (rowid r =? n)) (entries db);
                     sqlite_sequence := sqlite_sequence db |}
                = filter (fun r => negb (rowid r =? n)) (select_ordered db)).
  { unfold select_ordered. cbn [entries]. symmetry.
    apply SortFilter.sort_by_filter; [exact row_before_total | exact row_before_trans]. }
  split.
  - cbn [api_list_entries listed]. now rewrite Heq.
  - intros r. rewrite Heq, filter_In, negb_true_iff, Z.eqb_neq. reflexivity.
Qed.

Lemma relational_delete_then_list_witness :
  exists db',
    api_delete_entry (B := Reference.builtins) " 1 "
      (Relational {| entries := [ {| rowid := 1;
                                     row_data := stored_fields (at_request first_id) seeds 12.5 |} ];
                     sqlite_sequence := 1 |})
    = (Json 200 (JDict [("deleted", JInt 1)]), Relational db')
    /\ sqlite_sequence db' = 1
    /\ listed (api_list_entries (C := natural_order) (Relational db')) = []
    /\ forall r, In r (select_ordered db')
                 <-> In r (select_ordered
                             {| entries := [ {| rowid := 1;
                                                row_data := stored_fields (at_request first_id) seeds 12.5 |} ];
                                sqlite_sequence := 1 |})
                     /\ rowid r <> 1.
Proof.
  apply (relational_delete_then_list (B := Reference.builtins) (C := natural_order) " 1 " 1).
  - reflexivity.
  - unfold INT64_MIN, INT64_MAX. lia.
Defined.

(** A request that is not answered with status 200 leaves the store as it
    was: a refused or failed request stores and removes nothing. *)
Theorem failed_request_changes_nothing {B : Builtins} {C : Cursor}
  (s : store) (q : request) :
  (exists body, fst (handle s q) = Json 200 body) \/ snd (handle s q) = s.
Proof.
  destruct q as [e p | | entry_id]; simpl.
  - unfold api_add_entry.
    destruct (py_float _) as [a|ex]; [|now right].
    destruct s as [db | coll].
    + destruct (sqlite_insert db _); [left; eexists; reflexivity | now right].
    + destruct (insert_one coll _ _); [left; eexists; reflexivity | now right].
  - now right.
  - unfold api_delete_entry. destruct s as [db | coll].
    + destruct (int_of_str entry_id) as [n|]; [|now right].
      destruct (sqlite_delete db n); [left; eexists; reflexivity | now right].
    + destruct (oid_of_str entry_id); [left; eexists; reflexivity | now right].
Qed.

(** When the relational back end accepts a request whose text fields are
    JSON strings or absent: exactly when the amount coerces to a float that
    is not NaN, the type (or its default) is 'expense' or 'income', and the
    rowid counter has not reached the largest 64-bit integer. *)
Theorem relational_add_accepted_iff {B : Builtins}
  (e : environment) (p : payload) (db : database) :
  (exists body s', api_add_entry e p (Relational db) = (Json 200 body, s'))
  <->
  (exists a, py_float (default (JInt 0) (p_amount p)) = Ok a
             /\ PrimFloat.is_nan a = false)
  /\ type_check (default "expense" (p_type p)) = true
  /\ largest_rowid db < INT64_MAX.
Proof.
  unfold api_add_entry, sqlite_insert. cbn [type amount].
  destruct (py_float _) as [a|ex].
  - destruct (INT64_MAX <=? largest_rowid db) eqn:Hfull.
    + apply Z.leb_le in Hfull.
      split; [intros (? & ? & H); discriminate | intros (_ & _ & ?); lia].
    + apply Z.leb_gt in Hfull.
      destruct (PrimFloat.is_nan a) eqn:Ha.
      * split; [intros (? & ? & H); discriminate|].
        intros ((a' & Ha' & Hnan) & _). inversion Ha'; subst. congruence.
      * destruct (type_check _) eqn:Ht; cbn [negb].
        -- split; [|intros _; do 2 eexists; reflexivity].
           intros _. split; [now exists a|]. split; [reflexivity | exact Hfull].
        -- split; [intros (? & ? & H); discriminate | intros (_ & ? & _); discriminate].
  - split; [intros (? & ? & H); discriminate|].
    intros ((a & Ha & _) & _). discriminate.
Qed.

(** The empty body [{}]: the request is accepted with today's date, type
    'expense', category 'general', amount 0.0 and an empty note. *)
Definition empty_body : payload :=
  {| p_date := None; p_type := None; p_category := None; p_amount := None;
     p_note := None |}.

Theorem relational_add_empty_body {B : Builtins} (e : environment) (db : database) :
  largest_rowid db < INT64_MAX ->
  api_add_entry e empty_body (Relational db)
  = (Json 200 (JDict [("status", JStr "ok")]),
     Relational
       {| entries := entries db
            ++ [ {| rowid := largest_rowid db + 1;
                    row_data := {| date := utc_today e; type := "expense";
                                   category := "general"; amount := 0; note := "" |} |} ];
          sqlite_sequence := largest_rowid db + 1 |}).
Proof.
  intros Hroom. apply Z.leb_gt in Hroom.
  unfold api_add_entry, empty_body.
  cbn [p_amount p_date p_type p_category p_note default date_or_today py_float].
  replace (float_of_int 0) with (Ok 0%float) by (vm_compute; reflexivity).
  unfold sqlite_insert, as_stored. cbn [date type category amount note].
  replace (type_check "expense") with true by reflexivity.
  replace (PrimFloat.is_nan 0) with false by reflexivity.
  replace (real_column 0) with 0%float by reflexivity.
  cbn [negb]. now rewrite Hroom.
Qed.

Lemma relational_add_empty_body_witness :
  api_add_entry (B := Reference.builtins) (at_request first_id) empty_body
    (Relational empty_database)
  = (Json 200 (JDict [("status", JStr "ok")]),
     Relational
       {| entries := [ {| rowid := 1;
                          row_data := {| date := "2024-06-01"; type := "expense";
                                         category := "general"; amount := 0;
                                         note := "" |} |} ];
          sqlite_sequence := 1 |}).
Proof.
  apply (relational_add_empty_body (B := Reference.builtins)
           (at_request first_id) empty_database).
  reflexivity.
Defined.

End LedgerRoundTrips.

(* ================================================================== *)
(** * The document back end over sequences of requests *)
(* ================================================================== *)

Module DocumentInvariants.
Import Py Ledger LedgerFacts LedgerClaims.

Lemma existsb_oid_false (coll : list document) (new_id : string) :
  existsb (fun d => String.eqb (oid d) new_id) coll = false ->
  ~ In new_id (map oid coll).
Proof.
  induction coll as [|d coll IH]; simpl; [tauto|].
  rewrite orb_false_iff, String.eqb_neq.
  intros [Hd Hrest] [Heq | Hin]; [congruence | exact (IH Hrest Hin)].
Qed.

Lemma delete_one_subset (coll : list document) (target : string) (d : document) :
  In d (delete_one coll target) -> In d coll.
Proof.
  induction coll as [|x coll IH]; simpl; [tauto|].
  destruct (String.eqb (oid x) target); simpl; tauto.
Qed.

Lemma delete_one_nodup (coll : list document) (target : string) :
  NoDup (map oid coll) -> NoDup (map oid (delete_one coll target)).
Proof.
  induction coll as [|x coll IH]; simpl; intros H; [constructor|].
  inversion H as [|? ? Hx Hrest]; subst.
  destruct (String.eqb (oid x) target); simpl; [exact Hrest|].
  constructor; [|now apply IH].
  rewrite in_map_iff in *. intros (d & Hd & Hin).
  apply Hx. exists d. split; [exact Hd|]. eapply delete_one_subset; eauto.
Qed.

(** With distinct identifiers [delete_one] removes the document of that
    identifier and nothing else. *)
Lemma delete_one_spec (coll : list document) (target : string) (d : document) :
  NoDup (map oid coll) ->
  In d (delete_one coll target) <-> In d coll /\ oid d <> target.
Proof.
  induction coll as [|x coll IH]; simpl; intros H; [tauto|].
  inversion H as [|? ? Hx Hrest]; subst.
  destruct (String.eqb (oid x) target) eqn:E.
  - apply String.eqb_eq in E. subst target. split.
    + intros Hin. split; [now right|].
      intros Heq. apply Hx. rewrite <- Heq. now apply in_map.
    + intros [[-> | Hin] Hne]; [congruence | exact Hin].
  - apply String.eqb_neq in E. simpl. rewrite (IH Hrest). split.
    + intros [-> | [Hin Hne]]; auto.
    + intros [[-> | Hin] Hne]; auto.
Qed.

Lemma handle_document_nodup {B : Builtins} {C : Cursor} (coll : list document) (q : request) :
  NoDup (map oid coll) ->
  exists coll', snd (handle (Document coll) q) = Document coll'
                /\ NoDup (map oid coll').
Proof.
  intros Hnd. destruct q as [e p | | entry_id]; simpl.
  - unfold api_add_entry.
    destruct (py_float _) as [a|ex]; [|now exists coll].
    unfold insert_one.
    destruct (existsb _ coll) eqn:Hfresh; [now exists coll|].
    eexists. split; [reflexivity|].
    rewrite map_app. simpl.
    apply NoDup_app_remove_l with (l := []). simpl.
    apply (Permutation_NoDup (l := new_object_id e :: map oid coll)).
    + apply Permutation_cons_append.
    + constructor; [now apply existsb_oid_false | exact Hnd].
  - now exists coll.
  - destruct (oid_of_str entry_id) as [target|]; [|now exists coll].
    eexists. split; [reflexivity|]. now apply delete_one_nodup.
Qed.

Lemma serve_document_nodup {B : Builtins} {C : Cursor}
  (qs : list request) (coll : list document) :
  NoDup (map oid coll) ->
  exists coll', serve (Document coll) qs = Document coll' /\ NoDup (map oid coll').
Proof.
  revert coll. induction qs as [|q qs IH]; intros coll Hnd; [now exists coll|].
  destruct (handle_document_nodup coll q Hnd) as (coll1 & Hstep & Hnd1).
  unfold serve in *. simpl. rewrite Hstep. now apply IH.
Qed.

(** An add whose generated identifier is already in the collection is
    refused by the unique index on [_id], and the collection stays as it
    was. *)
Lemma add_entry_duplicate_id {B : Builtins}
  (e : environment) (p : payload) (a : float) (coll : list document) :
  py_float (default (JInt 0) (p_amount p)) = Ok a ->
  In (new_object_id e) (map oid coll) ->
  api_add_entry e p (Document coll) = (Unhandled DuplicateKeyError, Document coll).
Proof.
  intros Ha Hin. unfold api_add_entry, insert_one. rewrite Ha.
  replace (existsb (fun d => String.eqb (oid d) (new_object_id e)) coll) with true;
    [reflexivity|].
  symmetry. apply existsb_exists.
  apply in_map_iff in Hin. destruct Hin as (d & Hd & Hin).
  exists d. split; [exact Hin | now apply String.eqb_eq].
Qed.

(** From the empty collection on, after any sequence of requests, the
    stored documents have pairwise distinct identifiers, and a further add
    (with a coercible amount) whose generated ObjectId is already taken is
    refused with DuplicateKeyError and changes nothing. *)
Theorem document_ids_unique {B : Builtins} {C : Cursor} (qs : list request) :
  exists coll,
    serve (Document []) qs = Document coll
    /\ NoDup (map oid coll)
    /\ forall (e : environment) (p : payload) (a : float),
         py_float (default (JInt 0) (p_amount p)) = Ok a ->
         In (new_object_id e) (map oid coll) ->
         api_add_entry e p (Document coll) = (Unhandled DuplicateKeyError, Document coll).
Proof.
  destruct (serve_document_nodup qs [] (NoDup_nil _)) as (coll & Hrun & Hnd).
  exists coll. split; [exact Hrun|]. split; [exact Hnd|].
  intros e p a. apply add_entry_duplicate_id.
Qed.

(** The same identifier generated twice: the second add is refused. *)
Example duplicate_id_refused :
  handle (B := Reference.builtins) (C := natural_order)
    (serve (B := Reference.builtins) (C := natural_order) (Document [])
       [AddEntry (at_request first_id) seeds])
    (AddEntry (at_request first_id) seeds)
  = (Unhandled DuplicateKeyError,
     Document [ {| oid := first_id;
                   doc_data := stored_fields (at_request first_id) seeds 12.5 |} ]).
Proof. vm_compute. reflexivity. Qed.

(** Delete, then list, under the document back end: in a collection built
    through the handlers, deleting a well-formed ObjectId succeeds, and the
    listing afterwards holds the documents listed before except the one of
    that identifier. *)
Theorem document_delete_then_list {B : Builtins} {C : Cursor}
  (qs : list request) (coll : list document) (entry_id target : string) :
  serve (Document []) qs = Document coll ->
  oid_of_str entry_id = Some target ->
  exists coll',
    api_delete_entry entry_id (Document coll)
    = (Json 200 (JDict [("deleted", JStr entry_id)]), Document coll')
    /\ forall d, In d (find_sorted coll') <-> In d (find_sorted coll) /\ oid d <> target.
Proof.
  intros Hrun Htarget.
  destruct (serve_document_nodup qs [] (NoDup_nil _)) as (coll0 & Hrun0 & Hnd).
  rewrite Hrun in Hrun0. inversion Hrun0; subst coll0; clear Hrun0.
  unfold api_delete_entry. rewrite Htarget.
  eexists. split; [reflexivity|].
  intros d. split.
  - intros Hin.
    apply (Permutation_in _ (find_sorted_all _)) in Hin.
    apply (delete_one_spec _ _ _ Hnd) in Hin. destruct Hin as [Hin Hne].
    split; [|exact Hne].
    exact (Permutation_in _ (Permutation_sym (find_sorted_all coll)) Hin).
  - intros [Hin Hne].
    apply (Permutation_in _ (find_sorted_all coll)) in Hin.
    apply (Permutation_in _ (Permutation_sym (find_sorted_all _))).
    now apply delete_one_spec.
Qed.

Definition two_documents : list document :=
  [ {| oid := first_id;
       doc_data := {| date := "2024-01-01"; type := "income"; category := "general";
                      amount := 10; note := "" |} |};
    {| oid := second_id;
       doc_data := {| date := "2024-01-01"; type := "income"; category := "general";
                      amount := 10; note := "" |} |} ].

Lemma document_delete_then_list_witness :
  exists coll',
    api_delete_entry (B := Reference.builtins) "65A000000000000000000001"
      (Document two_documents)
    = (Json 200 (JDict [("deleted", JStr "65A000000000000000000001")]), Document coll')
    /\ forall d, In d (find_sorted (Cursor := natural_order) coll')
                 <-> In d (find_sorted (Cursor := natural_order) two_documents)
                     /\ oid d <> first_id.
Proof.
  apply (document_delete_then_list (B := Reference.builtins) (C := natural_order)
           two_same_day two_documents "65A000000000000000000001" first_id).
  - vm_compute. reflexivity.
  - reflexivity.
Defined.

(** ** Examples for the lemmas on deleting and adding *)

Lemma relational_delete_absent_witness :
  api_delete_entry (B := Reference.builtins) "7"
    (Relational {| entries := [ {| rowid := 1;
                                   row_data := stored_fields (at_request first_id) seeds 12.5 |} ];
                   sqlite_sequence := 1 |})
  = (Json 200 (JDict [("deleted", JInt 7)]),
     Relational {| entries := [ {| rowid := 1;
                                   row_data := stored_fields (at_request first_id) seeds 12.5 |} ];
                   sqlite_sequence := 1 |}).
Proof.
  apply (relational_delete_absent (B := Reference.builtins) "7" 7).
  - reflexivity.
  - unfold INT64_MIN, INT64_MAX. lia.
  - intros r [<- | []]. simpl. lia.
Defined.

Definition first_document : document :=
  {| oid := first_id; doc_data := stored_fields (at_request first_id) seeds 12.5 |}.

Lemma document_delete_absent_witness :
  api_delete_entry (B := Reference.builtins) second_id (Document [first_document])
  = (Json 200 (JDict [("deleted", JStr second_id)]), Document [first_document]).
Proof.
  apply (document_delete_absent (B := Reference.builtins) second_id second_id).
  - reflexivity.
  - intros d [<- | []]. simpl. discriminate.
Defined.

Lemma document_add_returns_id_witness :
  api_add_entry (B := Reference.builtins) (at_request first_id) seeds (Document [])
  = (Json 200 (JDict [("status", JStr "ok"); ("id", JStr first_id)]),
     Document [first_document])
  /\ exists f : fields,
       Document [first_document]
       = Document ([] ++ [ {| oid := new_object_id (at_request first_id); doc_data := f |} ]).
Proof.
  split; [reflexivity|].
  exact (proj2 (proj2
    (document_add_returns_id (B := Reference.builtins)
       (at_request first_id) seeds [] (Document [first_document]) 200
       (JDict [("status", JStr "ok"); ("id", JStr first_id)]) eq_refl))).
Defined.

End DocumentInvariants.

(* ================================================================== *)
(** * backend/market.py and the lookup routes of backend/app.py *)
(* ================================================================== *)

Module Market.
Import Py.

Record rates : Type := {
  min : Z;
  max : Z;
  expected : Z
}.

Definition wheat : rates := {| min := 1800; max := 2200; expected := 2050 |}.
Definition rice : rates := {| min := 2000; max := 2500; expected := 2300 |}.
Definition corn : rates := {| min := 1500; max := 1900; expected := 1750 |}.
Definition soybean : rates := {| min := 2500; max := 3200; expected := 2900 |}.

Definition MOCK_RATES : list (string * rates) :=
  [ ("Wheat", wheat); ("Rice", rice); ("Corn", corn); ("Soybean", soybean) ].

Fixpoint lookup (crop : string) (table : list (string * rates)) : option rates :=
  match table with
  | [] => None
  | (k, v) :: rest => if String.eqb k crop then Some v else lookup crop rest
  end.

(** [s or d] for a [str]. *)
Definition or_else (s d : string) : string :=
  if String.eqb s "" then d else s.

Definition get_market_rates {B : Builtins} (crop : string) : rates :=
  let crop := or_else (str_strip (or_else crop "")) "Wheat" in
  default wheat (lookup crop MOCK_RATES).

End Market.

Module Api.
Import Py Scheduler Market.

Definition rates_json (r : rates) : json :=
  JDict [("min", JInt (min r)); ("max", JInt (max r)); ("expected", JInt (expected r))].

(** [api_market]; [crop] is the query argument, when given. *)
Definition api_market {B : Builtins} (crop : option string) : response :=
  let crop := default "Wheat" crop in
  Json 200 (rates_json (get_market_rates crop)).

Definition item_json (it : item) : json :=
  JDict [("days_after_sowing", JInt (days_after_sowing it));
         ("pesticide", JStr (pesticide it)); ("note", JStr (note it))].

Definition recommendation_json (r : recommendation) : json :=
  match r with
  | Due due_date it =>
      JDict [("due_date", JStr due_date);
             ("days_after_sowing", JInt (days_after_sowing it));
             ("pesticide", JStr (pesticide it)); ("note", JStr (note it))]
  | Message m => JDict [("message", JStr m)]
  end.

(** [api_schedule]; [today] is [datetime.utcnow().date()]. *)
Definition api_schedule {B : Builtins} (crop : option string) (today : Z) : response :=
  let crop := default "Wheat" crop in
  let schedule := get_pesticide_schedule crop in
  match next_pesticide_recommendation crop today with
  | Ok next_due =>
      Json 200 (JDict [("crop", JStr crop);
                       ("schedule", JList (map item_json schedule));
                       ("next_due", recommendation_json next_due)])
  | Raise e => Unhandled e
  end.

End Api.

Module ReferenceFacts.
Import Reference.

Lemma rstrip_cons (c : ascii) (r : string) :
  rstrip (String c r) =
  match rstrip r with
  | EmptyString => if is_space c then EmptyString else String c EmptyString
  | r' => String c r'
  end.
Proof. reflexivity. Qed.

Lemma rstrip_idempotent (s : string) : rstrip (rstrip s) = rstrip s.
Proof.
  induction s as [|c r IH]; [reflexivity|]. rewrite rstrip_cons.
  destruct (rstrip r) as [|d r'] eqn:E.
  - destruct (is_space c) eqn:Hc; [reflexivity|].
    rewrite rstrip_cons. cbn [rstrip]. now rewrite Hc.
  - rewrite rstrip_cons, IH. reflexivity.
Qed.

Lemma lstrip_head (s : string) :
  lstrip s = EmptyString \/ exists c r, lstrip s = String c r /\ is_space c = false.
Proof.
  induction s as [|c r IH]; [now left|]. cbn [lstrip].
  destruct (is_space c) eqn:Hc; [exact IH|]. right. now exists c, r.
Qed.

Lemma rstrip_head (c : ascii) (r : string) :
  is_space c = false -> exists r', rstrip (String c r) = String c r'.
Proof.
  intros Hc. rewrite rstrip_cons, Hc. destruct (rstrip r); eexists; reflexivity.
Qed.

Lemma strip_idempotent (s : string) : strip (strip s) = strip s.
Proof.
  unfold strip. destruct (lstrip_head s) as [-> | (c & r & -> & Hc)]; [reflexivity|].
  destruct (rstrip_head c r Hc) as (r' & Hr). rewrite Hr.
  cbn [lstrip]. rewrite Hc, <- Hr. apply rstrip_idempotent.
Qed.

End ReferenceFacts.

Module LookupFacts.
Import Py Scheduler Market Api SchedulerFacts.

(** Whatever the crop, the rates returned are one of the four rows of the
    table, with 0 < min <= expected <= max. *)
Theorem market_rates_bounds {B : Builtins} (crop : string) :
  let r := get_market_rates crop in
  (r = wheat \/ r = rice \/ r = corn \/ r = soybean)
  /\ 0 < min r <= expected r
  /\ expected r <= max r.
Proof.
  unfold get_market_rates, MOCK_RATES. cbn [lookup].
  destruct (String.eqb "Wheat" _); [cbn; intuition lia|].
  destruct (String.eqb "Rice" _); [cbn; intuition lia|].
  destruct (String.eqb "Corn" _); [cbn; intuition lia|].
  destruct (String.eqb "Soybean" _); cbn; intuition lia.
Qed.

(** A crop whose trimmed name is not exactly 'Rice', 'Corn' or 'Soybean'
    (an unknown crop, a name in another case, a blank one) gets the rates of
    'Wheat'. *)
Theorem market_rates_fallback {B : Builtins} (crop : string) :
  str_strip (or_else crop "") <> "Rice" ->
  str_strip (or_else crop "") <> "Corn" ->
  str_strip (or_else crop "") <> "Soybean" ->
  get_market_rates crop = wheat.
Proof.
  unfold get_market_rates, MOCK_RATES.
  set (c := str_strip (or_else crop "")). intros Hr Hc Hs.
  unfold or_else. cbn [lookup].
  destruct (String.eqb c "") eqn:E; [reflexivity|].
  destruct (String.eqb "Wheat" _); [reflexivity|].
  destruct (String.eqb "Rice" _) eqn:E1; [apply String.eqb_eq in E1; congruence|].
  destruct (String.eqb "Corn" _) eqn:E2; [apply String.eqb_eq in E2; congruence|].
  destruct (String.eqb "Soybean" _) eqn:E3; [apply String.eqb_eq in E3; congruence|].
  reflexivity.
Qed.

Lemma market_rates_fallback_witness :
  get_market_rates (B := Reference.builtins) " rice " = wheat.
Proof.
  apply (market_rates_fallback (B := Reference.builtins) " rice "); discriminate.
Defined.

(** Whatever the crop, the schedule is not empty, its items come in strictly
    ascending days_after_sowing, all later than the 7-day offset, and it is
    the schedule of 'Wheat' unless the trimmed crop is exactly 'Rice'. *)
Theorem schedule_shape {B : Builtins} (crop : string) :
  let schedule := get_pesticide_schedule crop in
  schedule <> []
  /\ StronglySorted (fun a b => days_after_sowing a < days_after_sowing b) schedule
  /\ Forall (fun it => 7 < days_after_sowing it) schedule
  /\ (str_strip (or_wheat crop) <> "Rice" -> schedule = Wheat).
Proof.
  cbv zeta. split; [|split; [|split]].
  - destruct (schedule_cases crop) as [-> | ->]; discriminate.
  - destruct (schedule_cases crop) as [-> | ->];
      repeat (constructor; simpl; try lia).
  - apply schedule_offsets.
  - intros Hrice. unfold get_pesticide_schedule, SCHEDULES. cbn [Scheduler.lookup].
    destruct (String.eqb "Wheat" _); [reflexivity|].
    destruct (String.eqb "Rice" _) eqn:E; [|reflexivity].
    apply String.eqb_eq in E. congruence.
Qed.

(** The schedule the route reports and the one the recommendation is drawn
    from are looked up under names trimmed once and twice; they are the same
    table when trimming twice changes nothing. *)
Lemma schedule_of_trimmed {B : Builtins} (crop : string) :
  (forall s, str_strip (str_strip s) = str_strip s) ->
  str_strip "Wheat" = "Wheat" ->
  get_pesticide_schedule (str_strip (or_wheat crop)) = get_pesticide_schedule crop.
Proof.
  intros Hidem Hwheat. unfold get_pesticide_schedule.
  set (c := str_strip (or_wheat crop)).
  unfold or_wheat at 1.
  destruct (String.eqb c "") eqn:E.
  - apply String.eqb_eq in E. rewrite Hwheat, E. reflexivity.
  - unfold c. now rewrite Hidem.
Qed.

(** [/api/schedule], for a date from 0001-01-08 to eight days before the end
    of the calendar, on a runtime whose [strip] is idempotent and leaves
    'Wheat' alone: the answer carries the crop as given, the schedule, and as
    next_due the first item of that very schedule, due days_after_sowing - 7
    days after today. *)
Theorem api_schedule_next_is_first {B : Builtins} (crop : option string) (today : Z) :
  (forall s, str_strip (str_strip s) = str_strip s) ->
  str_strip "Wheat" = "Wheat" ->
  8 <= today <= MAXORDINAL - 8 ->
  exists (it : item) (rest : list item),
    get_pesticide_schedule (default "Wheat" crop) = it :: rest
    /\ api_schedule crop today =
       Json 200 (JDict
         [("crop", JStr (default "Wheat" crop));
          ("schedule", JList (map item_json (it :: rest)));
          ("next_due",
           recommendation_json
             (Due (isoformat (today + (days_after_sowing it - 7))) it))]).
Proof.
  intros Hidem Hwheat [Hlo Hhi].
  set (c := default "Wheat" crop).
  assert (Hshape : exists it rest,
             get_pesticide_schedule c = it :: rest /\ 7 < days_after_sowing it <= 15).
  { destruct (schedule_cases c) as [-> | ->];
      do 2 eexists; (split; [reflexivity | simpl; lia]). }
  destruct Hshape as (it & rest & Hsched & Hoff).
  exists it, rest. split; [exact Hsched|].
  unfold api_schedule. fold c. rewrite Hsched.
  unfold next_pesticide_recommendation.
  rewrite (schedule_of_trimmed c Hidem Hwheat), Hsched, date_sub_spec.
  cbn [first_due]. unfold date_add.
  replace (today + (days_after_sowing it - 7))
    with (today - 7 + days_after_sowing it) by lia.
  unfold MINORDINAL, MAXORDINAL in *.
  repeat first [ progress cbn [bind andb] | split_test ];
    try reflexivity; lia.
Qed.

Lemma api_schedule_next_is_first_witness :
  exists (it : item) (rest : list item),
    get_pesticide_schedule (B := Reference.builtins) (default "Wheat" (Some " Rice"))
    = it :: rest
    /\ api_schedule (B := Reference.builtins) (Some " Rice") 738886 =
       Json 200 (JDict
         [("crop", JStr (default "Wheat" (Some " Rice")));
          ("schedule", JList (map item_json (it :: rest)));
          ("next_due",
           recommendation_json
             (Due (isoformat (Builtins := Reference.builtins)
                     (738886 + (days_after_sowing it - 7))) it))]).
Proof.
  apply (api_schedule_next_is_first (B := Reference.builtins) (Some " Rice") 738886).
  - exact ReferenceFacts.strip_idempotent.
  - reflexivity.
  - unfold MAXORDINAL. lia.
Defined.

End LookupFacts.

(* ================================================================== *)
(** * The scheme filter on records that are not as documented *)
(* ================================================================== *)

Module SchemesEdge.
Import Py Schemes SchemesClaims.

(** A record on which [item.get(key, '').lower()] fails: not an object, or
    its field is present and not a string. *)
Definition unreadable (key : string) (item : json) : bool :=
  match item with
  | JDict kv =>
      match get key kv with
      | None => false
      | Some (JStr _) => false
      | Some _ => true
      end
  | _ => true
  end.

Lemma field_ok_raises {B : Builtins} (key wanted : string) (item : json) (e : exn) :
  field_ok key wanted item = Raise e -> e = AttributeError.
Proof.
  unfold field_ok, lowered_field.
  destruct (String.eqb wanted ""); [discriminate|].
  destruct item as [| | | | |l|kv]; cbn; try (intros H; now inversion H).
  destruct (get key kv) as [[| | | | | |]|]; cbn; intros H; now inversion H.
Qed.

Lemma field_ok_unreadable {B : Builtins} (key wanted : string) (item : json) :
  wanted <> "" -> unreadable key item = true ->
  field_ok key wanted item = Raise AttributeError.
Proof.
  intros Hw Hbad. unfold field_ok, lowered_field.
  apply String.eqb_neq in Hw. rewrite Hw.
  destruct item as [| | | | |l|kv]; try reflexivity.
  cbn in Hbad. destruct (get key kv) as [[| | | | | |]|]; try reflexivity; discriminate.
Qed.

Lemma scan_raises {B : Builtins} (state district : string) (items : list json) (e : exn) :
  scan state district items = Raise e -> e = AttributeError.
Proof.
  induction items as [|item rest IH]; cbn [scan]; [discriminate|].
  destruct (field_ok "state" state item) as [s_ok|e1] eqn:Hs;
    [|cbn; intros H; inversion H; subst; eapply field_ok_raises; eauto].
  destruct (field_ok "district" district item) as [d_ok|e2] eqn:Hd;
    [|cbn; intros H; inversion H; subst; eapply field_ok_raises; eauto].
  destruct (scan state district rest) as [results|e3];
    cbn; [discriminate|]. intros H. inversion H; subst. now apply IH.
Qed.

Lemma scan_unreadable {B : Builtins} (key state district : string) (items : list json) :
  (key = "state" /\ state <> "") \/ (key = "district" /\ district <> "") ->
  Exists (fun item => unreadable key item = true) items ->
  scan state district items = Raise AttributeError.
Proof.
  intros Hkey. induction 1 as [item rest Hbad | item rest _ IH]; cbn [scan].
  - destruct Hkey as [[-> Hs] | [-> Hd]].
    + now rewrite (field_ok_unreadable "state" state item Hs Hbad).
    + destruct (field_ok "state" state item) as [s_ok|e] eqn:Hs.
      * cbn [bind]. now rewrite (field_ok_unreadable "district" district item Hd Hbad).
      * cbn [bind]. f_equal. eapply field_ok_raises; eauto.
  - destruct (field_ok "state" state item) as [s_ok|e1] eqn:Hs;
      [|cbn [bind]; f_equal; eapply field_ok_raises; eauto].
    destruct (field_ok "district" district item) as [d_ok|e2] eqn:Hd;
      [|cbn [bind]; f_equal; eapply field_ok_raises; eauto].
    cbn [bind]. now rewrite IH.
Qed.

(** One unreadable record in the file (not an object, or with a state that
    is not a string) makes every request that filters on state fail with
    AttributeError, whatever the other records are; likewise for district.
    No partial result is returned. *)
Theorem schemes_unreadable_record {B : Builtins}
  (key : string) (items : list json) (state district : string) :
  (key = "state" /\ str_strip (str_lower state) <> "")
  \/ (key = "district" /\ str_strip (str_lower district) <> "") ->
  Exists (fun item => unreadable key item = true) items ->
  api_schemes (Some items) state district = Unhandled AttributeError.
Proof.
  intros Hkey Hbad. unfold api_schemes.
  now rewrite (scan_unreadable key _ _ items Hkey Hbad).
Qed.

Lemma schemes_unreadable_record_witness :
  api_schemes (B := Reference.builtins)
    (Some [goa; JDict [("name", JStr "Draft"); ("state", JNull)]]) "Goa" ""
  = Unhandled AttributeError.
Proof.
  apply (schemes_unreadable_record (B := Reference.builtins) "state").
  - left. split; [reflexivity | discriminate].
  - right. left. reflexivity.
Defined.

Lemma field_ok_value {B : Builtins} (key wanted : string) (item : json) (b : bool) :
  field_ok key wanted item = Ok b -> b = blank_or_equal key wanted item.
Proof.
  unfold field_ok, blank_or_equal, lowered_field, text_field.
  destruct (String.eqb wanted ""); [intros H; now inversion H|].
  destruct item as [| | | | |l|kv]; cbn; try discriminate.
  destruct (get key kv) as [[| | | | | |]|]; cbn; try discriminate;
    intros H; now inversion H.
Qed.

Lemma scan_value {B : Builtins} (state district : string) (items results : list json) :
  scan state district items = Ok results ->
  results = filter (keeps state district) items.
Proof.
  revert results. induction items as [|item rest IH]; cbn [scan filter]; intros results.
  - intros H. now inversion H.
  - destruct (field_ok "state" state item) as [s_ok|e1] eqn:Hs; [|discriminate].
    destruct (field_ok "district" district item) as [d_ok|e2] eqn:Hd; [|discriminate].
    destruct (scan state district rest) as [tl|e3]; [|discriminate].
    cbn [bind]. intros H. inversion H; subst; clear H.
    apply field_ok_value in Hs, Hd. unfold keeps. rewrite <- Hs, <- Hd.
    now rewrite (IH tl eq_refl).
Qed.

(** For a file that holds a list of records, whatever the records are, the
    route either answers with exactly the records that pass the two tests,
    in file order, or fails with AttributeError: it never answers with a
    partial or reordered list. *)
Theorem schemes_all_or_nothing {B : Builtins}
  (items : list json) (state district : string) :
  api_schemes (Some items) state district
  = Json 200 (JDict [("schemes", JList
      (filter (keeps (str_strip (str_lower state)) (str_strip (str_lower district)))
              items))])
  \/ api_schemes (Some items) state district = Unhandled AttributeError.
Proof.
  unfold api_schemes.
  destruct (scan _ _ items) as [results|e] eqn:Hscan.
  - left. now rewrite (scan_value _ _ _ _ Hscan).
  - right. now rewrite (scan_raises _ _ _ _ Hscan).
Qed.

End SchemesEdge.

(* ================================================================== *)
(** * Text arguments: [(value or '').strip()] *)
(* ================================================================== *)

Module Text.
Import Py.

(** [bool(v)] for a JSON value. *)
Definition truthy (v : json) : bool :=
  match v with
  | JNull => false
  | JBool b => b
  | JInt z => negb (z =? 0)
  | JFloat f => negb (PrimFloat.eqb f 0)
  | JStr s => negb (String.eqb s "")
  | JList l => match l with [] => false | _ :: _ => true end
  | JDict kv => match kv with [] => false | _ :: _ => true end
  end.

(** [(v or '').strip()], [v] being [None] or a JSON value: a value that is
    true and not a string has no [strip]. *)
Definition stripped {B : Builtins} (v : option json) : result string :=
  match v with
  | None => Ok (str_strip "")
  | Some j =>
      if truthy j
      then match j with
           | JStr s => Ok (str_strip s)
           | _ => Raise AttributeError
           end
      else Ok (str_strip "")
  end.

End Text.

(* ================================================================== *)
(** * backend/translator.py and its routes *)
(* ================================================================== *)

Module Translator.
Import Py Text.

(** The two collaborators: [googletrans.Translator.translate(...).text] and
    the bytes [gTTS(text, lang).write_to_fp] produces; either may raise. *)
Record services : Type := {
  translate : string -> json -> json -> result string;
  speak : string -> json -> result string
}.

Definition translate_text {B : Builtins} (sv : services) (text src dest : json)
  : result string :=
  text <- stripped (Some text) ;;
  if String.eqb text "" then Ok "" else translate sv text src dest.

Definition synthesize_speech {B : Builtins} (sv : services) (text lang : json)
  : result string :=
  text <- stripped (Some text) ;;
  let text := if String.eqb text "" then "Hello" else text in
  speak sv text lang.

(** The body of [POST /api/translate]. *)
Record translate_request : Type := {
  t_text : option json;
  t_src : option json;
  t_dest : option json
}.

Definition api_translate {B : Builtins} (sv : services) (data : translate_request)
  : response :=
  let text := default (JStr "") (t_text data) in
  let src := default (JStr "auto") (t_src data) in
  let dest := default (JStr "en") (t_dest data) in
  match translate_text sv text src dest with
  | Ok translated => Json 200 (JDict [("translated", JStr translated)])
  | Raise e => Unhandled e
  end.

End Translator.

(* ================================================================== *)
(** * backend/weather.py and its route *)
(* ================================================================== *)

Module Weather.
Import Py.

(** A step of the lookup either gives a value or fails with the text of the
    exception, which is all the [except] clause keeps of it. *)
Inductive attempt (A : Type) : Type :=
| Done (a : A)
| Failed (message : string).
Arguments Done {A} a.
Arguments Failed {A} message.

Definition and_then {A B : Type} (r : attempt A) (k : A -> attempt B) : attempt B :=
  match r with
  | Done a => k a
  | Failed m => Failed m
  end.

(** [type(v).__name__]. *)
Definition type_name (v : json) : string :=
  match v with
  | JNull => "NoneType"
  | JBool _ => "bool"
  | JInt _ => "int"
  | JFloat _ => "float"
  | JStr _ => "str"
  | JList _ => "list"
  | JDict _ => "dict"
  end.

Definition no_attribute_get (v : json) : string :=
  String.append "'" (String.append (type_name v) "' object has no attribute 'get'").

Definition not_subscriptable (v : json) : string :=
  String.append "'" (String.append (type_name v) "' object is not subscriptable").

(** [v.get(key, d)]. *)
Definition get_or (v : json) (key : string) (d : json) : attempt json :=
  match v with
  | JDict kv => Done (default d (get key kv))
  | _ => Failed (no_attribute_get v)
  end.

(** [v[0].get('description', '')]: the first element of a list; a JSON
    object has no key 0; the first character of a string is a string, which
    has no [get]. *)
Definition first_description (v : json) : attempt json :=
  match v with
  | JList (x :: _) => get_or x "description" (JStr "")
  | JList [] => Failed "list index out of range"
  | JStr EmptyString => Failed "string index out of range"
  | JStr (String _ _) => Failed (no_attribute_get (JStr "x"))
  | JDict _ => Failed "0"
  | _ => Failed (not_subscriptable v)
  end.

(** The dict built from the service's reply, field by field. *)
Definition report (city : string) (data : json) : attempt json :=
  and_then (get_or data "name" (JStr city)) (fun name =>
  and_then (get_or data "main" (JDict [])) (fun main =>
  and_then (get_or main "temp" JNull) (fun temp =>
  and_then (get_or data "main" (JDict [])) (fun main =>
  and_then (get_or main "humidity" JNull) (fun humidity =>
  and_then (get_or data "weather" (JList [JDict []])) (fun weather =>
  and_then (first_description weather) (fun condition =>
  and_then (get_or data "wind" (JDict [])) (fun wind =>
  and_then (get_or wind "speed" JNull) (fun speed =>
  Done (JDict [("city", name); ("temp_c", temp); ("humidity", humidity);
               ("condition", condition); ("wind_mps", speed)])))))))))).

Definition failure (message city : string) : json :=
  JDict [("error", JStr message); ("city", JStr city)].

(** [get_weather].  [api_key] is [os.environ.get('OPENWEATHER_API_KEY', '')];
    [exchange] is what [requests.get], [raise_for_status] and [resp.json()]
    give for this city: the decoded body, or the text of their exception. *)
Definition get_weather (api_key : string) (exchange : string -> attempt json)
  (city : string) : json :=
  if String.eqb api_key ""
  then failure "OPENWEATHER_API_KEY not set" city
  else
    match and_then (exchange city) (report city) with
    | Done result => result
    | Failed message => failure message city
    end.

Definition api_weather (api_key : string) (exchange : string -> attempt json)
  (city : option string) : response :=
  let city := default "Pune" city in
  Json 200 (get_weather api_key exchange city).

End Weather.

(* ================================================================== *)
(** * The notes routes of backend/app.py *)
(* ================================================================== *)

Module Notes.
Import Py Text Ledger.

Record note : Type := {
  note_id : string;        (* str(doc['_id']) *)
  title : string;
  content : string;
  created_at : string
}.

(** The body of [POST /api/notes]. *)
Record note_payload : Type := {
  n_title : option json;
  n_content : option json
}.

(** What a request reads from its surroundings:
    [datetime.utcnow().isoformat()] and the generated [ObjectId]. *)
Record note_environment : Type := {
  utc_now : string;
  new_note_id : string
}.

(** [a] may come before [b] under [sort=[('created_at', -1)]]. *)
Definition created_desc (a b : note) : Prop :=
  String.compare (created_at a) (created_at b) <> Lt.

(** [mongo_notes.find({}, sort=[('created_at', -1)])]. *)
Class NoteCursor : Type := {
  find_notes : list note -> list note;
  find_notes_all : forall coll, Permutation (find_notes coll) coll;
  find_notes_desc : forall coll, StronglySorted created_desc (find_notes coll)
}.

Definition not_configured : response :=
  Json 400 (JDict [("error", JStr "MongoDB not configured")]).

(** [s or 'Untitled']. *)
Definition or_untitled (s : string) : string :=
  if String.eqb s "" then "Untitled" else s.

(** [api_add_note]; [s] tells whether [USE_MONGO] is set, [notes] is the
    notes collection. *)
Definition api_add_note {B : Builtins} (e : note_environment) (p : note_payload)
  (s : store) (notes : list note) : response * list note :=
  match s with
  | Relational _ => (not_configured, notes)
  | Document _ =>
      match stripped (n_title p) with
      | Raise ex => (Unhandled ex, notes)
      | Ok t =>
          let title := or_untitled t in
          match stripped (n_content p) with
          | Raise ex => (Unhandled ex, notes)
          | Ok content =>
              if existsb (fun n => String.eqb (note_id n) (new_note_id e)) notes
              then (Unhandled DuplicateKeyError, notes)
              else
                (Json 200 (JDict [("status", JStr "ok"); ("id", JStr (new_note_id e))]),
                 notes ++ [ {| note_id := new_note_id e; title := title;
                               content := content; created_at := utc_now e |} ])
          end
      end
  end.

(** The document after [doc['id'] = str(doc.get('_id'))] and
    [doc.pop('_id')]. *)
Definition note_json (n : note) : json :=
  JDict [("title", JStr (title n)); ("content", JStr (content n));
         ("created_at", JStr (created_at n)); ("id", JStr (note_id n))].

Definition api_list_notes {N : NoteCursor} (s : store) (notes : list note) : response :=
  match s with
  | Relational _ => not_configured
  | Document _ => Json 200 (JDict [("notes", JList (map note_json (find_notes notes)))])
  end.

Inductive note_request : Type :=
| AddNote (e : note_environment) (p : note_payload)
| ListNotes.

Definition handle_note {B : Builtins} {N : NoteCursor} (s : store) (notes : list note)
  (q : note_request) : response * list note :=
  match q with
  | AddNote e p => api_add_note e p s notes
  | ListNotes => (api_list_notes s notes, notes)
  end.

(** The responses to a sequence of requests, and the collection after it. *)
Fixpoint serve_notes {B : Builtins} {N : NoteCursor} (s : store) (notes : list note)
  (qs : list note_request) : list response * list note :=
  match qs with
  | [] => ([], notes)
  | q :: rest =>
      let (r, notes') := handle_note s notes q in
      let (rs, final) := serve_notes s notes' rest in
      (r :: rs, final)
  end.

End Notes.

Module NotesFacts.
Import Py Text Order OrderFacts StringOrder Ledger Notes.

(** A server that keeps notes of equal timestamps in collection order. *)
Definition note_before (a b : note) : bool :=
  match String.compare (created_at a) (created_at b) with
  | Lt => false
  | _ => true
  end.

Lemma note_before_spec (a b : note) : note_before a b = true <-> created_desc a b.
Proof.
  unfold note_before, created_desc.
  destruct (String.compare (created_at a) (created_at b)); split; congruence.
Qed.

Lemma note_before_total (a b : note) : note_before a b = false -> note_before b a = true.
Proof.
  unfold note_before. rewrite (String.compare_antisym (created_at b)).
  destruct (String.compare (created_at a) (created_at b)); simpl; congruence.
Qed.

Lemma note_before_trans (a b c : note) :
  note_before a b = true -> note_before b c = true -> note_before a c = true.
Proof. rewrite !note_before_spec. apply compare_ge_trans. Qed.

Lemma natural_notes_desc (coll : list note) :
  StronglySorted created_desc (sort_by note_before coll).
Proof.
  eapply StronglySorted_weaken; [| apply (sort_by_sorted note_before)].
  - intros a b. apply note_before_spec.
  - exact note_before_total.
  - exact note_before_trans.
Qed.

Definition natural_notes : NoteCursor := {|
  find_notes := sort_by note_before;
  find_notes_all := sort_by_perm note_before;
  find_notes_desc := natural_notes_desc
|}.

(** Under the relational back end every notes request, whatever its body,
    is answered with status 400 and 'MongoDB not configured', and no note is
    ever stored. *)
Theorem notes_need_document_backend {B : Builtins} {N : NoteCursor}
  (db : database) (notes : list note) (qs : list note_request) :
  serve_notes (Relational db) notes qs = (map (fun _ => not_configured) qs, notes).
Proof.
  induction qs as [|q qs IH]; [reflexivity|].
  cbn [serve_notes map]. destruct q as [e p|]; cbn; now rewrite IH.
Qed.

Lemma or_untitled_not_blank (s : string) : or_untitled s <> "".
Proof.
  unfold or_untitled. destruct (String.eqb s "") eqn:E; [discriminate|].
  now apply String.eqb_neq.
Qed.

Lemma handle_note_titled {B : Builtins} {N : NoteCursor}
  (s : store) (notes : list note) (q : note_request) :
  Forall (fun n => title n <> "") notes ->
  Forall (fun n => title n <> "") (snd (handle_note s notes q)).
Proof.
  intros H. destruct q as [e p|]; [|exact H]. cbn [handle_note].
  unfold api_add_note. destruct s as [db|coll]; [exact H|].
  destruct (stripped (n_title p)) as [t|ex]; [|exact H].
  destruct (stripped (n_content p)) as [c|ex]; [|exact H].
  destruct (existsb _ notes); [exact H|]. cbn [snd].
  apply Forall_app. split; [exact H|].
  constructor; [|constructor]. apply or_untitled_not_blank.
Qed.

(** No stored note has an empty title: from the empty collection on, after
    any sequence of requests, under either back end. *)
Theorem notes_always_titled {B : Builtins} {N : NoteCursor}
  (s : store) (qs : list note_request) :
  Forall (fun n => title n <> "") (snd (serve_notes s [] qs)).
Proof.
  assert (H : forall notes, Forall (fun n => title n <> "") notes ->
              Forall (fun n => title n <> "") (snd (serve_notes s notes qs))).
  { induction qs as [|q qs IH]; intros notes Hn; [exact Hn|].
    cbn [serve_notes].
    pose proof (handle_note_titled s notes q Hn) as Hstep.
    destruct (handle_note s notes q) as [r notes'].
    specialize (IH notes' Hstep).
    destruct (serve_notes s notes' qs) as [rs final]. exact IH. }
  apply H. constructor.
Qed.

(** A note whose title is absent, null, or blank once trimmed is stored as
    'Untitled', with the trimmed content and the request's timestamp, and
    is listed afterwards under the id the response returned. *)
Theorem note_without_title {B : Builtins} {N : NoteCursor}
  (e : note_environment) (p : note_payload) (coll : list document)
  (notes : list note) (text : string) :
  stripped (n_title p) = Ok "" ->
  stripped (n_content p) = Ok text ->
  existsb (fun n => String.eqb (note_id n) (new_note_id e)) notes = false ->
  let stored := {| note_id := new_note_id e; title := "Untitled";
                   content := text; created_at := utc_now e |} in
  api_add_note e p (Document coll) notes
  = (Json 200 (JDict [("status", JStr "ok"); ("id", JStr (new_note_id e))]),
     notes ++ [stored])
  /\ exists listing,
       api_list_notes (Document coll) (notes ++ [stored])
       = Json 200 (JDict [("notes", JList listing)])
       /\ In (note_json stored) listing.
Proof.
  intros Ht Hc Hfresh stored. split.
  - unfold api_add_note. now rewrite Ht, Hc, Hfresh.
  - eexists. split; [reflexivity|]. apply in_map.
    apply (Permutation_in _ (Permutation_sym (find_notes_all _))).
    apply in_or_app. right. now left.
Qed.

Definition blank_title : note_payload :=
  {| n_title := Some (JStr "   "); n_content := Some (JStr " buy seeds ") |}.

Definition at_noon : note_environment :=
  {| utc_now := "2024-06-01T12:00:00"; new_note_id := "65a0000000000000000000aa" |}.

Lemma note_without_title_witness :
  api_add_note (B := Reference.builtins) at_noon blank_title (Document []) []
  = (Json 200 (JDict [("status", JStr "ok"); ("id", JStr "65a0000000000000000000aa")]),
     [] ++ [ {| note_id := "65a0000000000000000000aa"; title := "Untitled";
                content := "buy seeds"; created_at := "2024-06-01T12:00:00" |} ])
  /\ exists listing,
       api_list_notes (N := natural_notes) (Document [])
         ([] ++ [ {| note_id := "65a0000000000000000000aa"; title := "Untitled";
                     content := "buy seeds"; created_at := "2024-06-01T12:00:00" |} ])
       = Json 200 (JDict [("notes", JList listing)])
       /\ In (note_json {| note_id := "65a0000000000000000000aa"; title := "Untitled";
                           content := "buy seeds";
                           created_at := "2024-06-01T12:00:00" |}) listing.
Proof.
  apply (note_without_title (B := Reference.builtins) (N := natural_notes)
           at_noon blank_title [] [] "buy seeds"); reflexivity.
Defined.

End NotesFacts.

Module CollaboratorFacts.
Import Py Text Translator Weather.

(** A text that is absent, null, or blank once trimmed is translated to the
    empty string by the route itself: the translation service is not
    consulted, so the answer is the same whatever the service would do. *)
Theorem translate_blank_text {B : Builtins} (sv : services) (data : translate_request) :
  stripped (Some (default (JStr "") (t_text data))) = Ok "" ->
  api_translate sv data = Json 200 (JDict [("translated", JStr "")]).
Proof.
  intros H. unfold api_translate, translate_text. rewrite H. reflexivity.
Qed.

(** Services that are down. *)
Definition unavailable : services :=
  {| translate := fun _ _ _ => Raise OperationalError;
     speak := fun _ _ => Raise OperationalError |}.

Lemma translate_blank_text_witness :
  api_translate (B := Reference.builtins) unavailable
    {| t_text := Some (JStr "  "); t_src := None; t_dest := Some (JStr "hi") |}
  = Json 200 (JDict [("translated", JStr "")]).
Proof.
  apply (translate_blank_text (B := Reference.builtins)). reflexivity.
Defined.

(** Speech for a blank text is the speech for 'Hello', in the language
    asked for; any other text is spoken trimmed. *)
Theorem speech_of_blank_text {B : Builtins} (sv : services) (text lang : json) (s : string) :
  stripped (Some text) = Ok s ->
  synthesize_speech sv text lang
  = speak sv (if String.eqb s "" then "Hello" else s) lang.
Proof.
  intros H. unfold synthesize_speech. rewrite H. reflexivity.
Qed.

Definition echo : services :=
  {| translate := fun text _ _ => Ok text;
     speak := fun text _ => Ok text |}.

Lemma speech_of_blank_text_witness :
  synthesize_speech (B := Reference.builtins) echo JNull (JStr "en") = Ok "Hello".
Proof.
  apply (speech_of_blank_text (B := Reference.builtins) echo JNull (JStr "en") "").
  reflexivity.
Defined.

Lemma report_shape (city : string) (data result : json) :
  report city data = Done result ->
  exists kv name temp humidity condition speed,
    data = JDict kv
    /\ result = JDict [("city", name); ("temp_c", temp); ("humidity", humidity);
                       ("condition", condition); ("wind_mps", speed)].
Proof.
  unfold report.
  destruct data as [| | | | |l|kv]; try discriminate.
  cbn [get_or and_then].
  repeat match goal with
         | |- context [and_then ?r _] =>
             destruct r; cbn [and_then]; [|discriminate]
         end.
  intros H. inversion H; subst. repeat eexists.
Qed.

(** [get_weather] answers in one of two shapes, and never in a third:
    either the five fields read from a reply that is a JSON object, or an
    error text together with the city asked for.  Without an API key it is
    the fixed error, whatever the service would have replied. *)
Theorem weather_answer_shape
  (api_key : string) (exchange : string -> attempt json) (city : string) :
  (api_key = "" ->
   get_weather api_key exchange city = failure "OPENWEATHER_API_KEY not set" city)
  /\ ((exists message, get_weather api_key exchange city = failure message city)
      \/ (exists kv name temp humidity condition speed,
            exchange city = Done (JDict kv)
            /\ get_weather api_key exchange city
               = JDict [("city", name); ("temp_c", temp); ("humidity", humidity);
                        ("condition", condition); ("wind_mps", speed)])).
Proof.
  split.
  - intros ->. reflexivity.
  - unfold get_weather.
    destruct (String.eqb api_key ""); [left; eexists; reflexivity|].
    destruct (exchange city) as [data|m] eqn:Hx; cbn [and_then];
      [|left; eexists; reflexivity].
    destruct (report city data) as [result|m] eqn:Hr; [|left; eexists; reflexivity].
    destruct (report_shape _ _ _ Hr) as (kv & name & t & h & c & w & -> & ->).
    right. now exists kv, name, t, h, c, w.
Qed.

(** A reply without the sections 'main', 'weather' and 'wind' is not an
    error: the measurements are null, the condition is the empty string, and
    the city is the reply's name or, without one, the city asked for. *)
Theorem weather_missing_sections
  (api_key : string) (exchange : string -> attempt json) (city : string)
  (kv : list (string * json)) :
  api_key <> "" ->
  exchange city = Done (JDict kv) ->
  get "main" kv = None -> get "weather" kv = None -> get "wind" kv = None ->
  get_weather api_key exchange city
  = JDict [("city", default (JStr city) (get "name" kv)); ("temp_c", JNull);
           ("humidity", JNull); ("condition", JStr ""); ("wind_mps", JNull)].
Proof.
  intros Hkey Hx Hmain Hweather Hwind. unfold get_weather.
  apply String.eqb_neq in Hkey. rewrite Hkey, Hx.
  unfold report. cbn [and_then get_or]. rewrite Hmain, Hweather, Hwind. reflexivity.
Qed.

Lemma weather_missing_sections_witness :
  get_weather "k3y" (fun _ => Done (JDict [("cod", JInt 200)])) "Pune"
  = JDict [("city", JStr "Pune"); ("temp_c", JNull); ("humidity", JNull);
           ("condition", JStr ""); ("wind_mps", JNull)].
Proof.
  apply (weather_missing_sections "k3y" (fun _ => Done (JDict [("cod", JInt 200)]))
           "Pune" [("cod", JInt 200)]); try reflexivity.
  discriminate.
Defined.

(** A reply whose 'weather' list is present but empty is an error, even
    with every other section in place: the default protects only against a
    missing key. *)
Theorem weather_empty_list
  (api_key : string) (exchange : string -> attempt json) (city : string)
  (kv main : list (string * json)) :
  api_key <> "" ->
  exchange city = Done (JDict kv) ->
  get "main" kv = Some (JDict main) ->
  get "weather" kv = Some (JList []) ->
  get_weather api_key exchange city = failure "list index out of range" city.
Proof.
  intros Hkey Hx Hmain Hweather. unfold get_weather.
  apply String.eqb_neq in Hkey. rewrite Hkey, Hx.
  unfold report. cbn [and_then get_or]. rewrite Hmain, Hweather. reflexivity.
Qed.

Lemma weather_empty_list_witness :
  get_weather "k3y"
    (fun _ => Done (JDict [("name", JStr "Pune");
                           ("main", JDict [("temp", JFloat 31.5); ("humidity", JInt 40)]);
                           ("weather", JList []);
                           ("wind", JDict [("speed", JFloat 2.5)])]))
    "pune"
  = failure "list index out of range" "pune".
Proof.
  eapply weather_empty_list; try reflexivity. discriminate.
Defined.

End CollaboratorFacts.

(* ================================================================== *)
(** * The leaf heuristic of backend/app.py *)
(* ================================================================== *)

Module Disease.
Import Py Weather.

(** A pixel of [img.getdata()] in mode RGB: three bytes. *)
Definition pixel : Type := (Z * Z * Z)%type.

Definition red (p : pixel) : Z := fst (fst p).
Definition green (p : pixel) : Z := snd (fst p).
Definition blue (p : pixel) : Z := snd p.

(** [a / b] on [int]s: the binary64 nearest to the quotient, ties to even. *)
Definition int_true_div (a b : Z) : attempt float :=
  if b =? 0 then Failed "division by zero"
  else
    let negative := xorb (a <? 0) (b <? 0) in
    let m := Z.abs a in
    let d := Z.abs b in
    let magnitude :=
      if m =? 0 then 0%float
      else
        let s := Z.max 0 (Z.log2 d - Z.log2 m + 64) in
        let q := (m * 2 ^ s) / d in
        let sticky := if (m * 2 ^ s) mod d =? 0 then 0 else 1 in
        SF2Prim (binary_normalize prec emax (2 * q + sticky) (- s - 1) false) in
    if PrimFloat.is_infinity magnitude
    then Failed "integer division result too large for a float"
    else Done (if negative then (- magnitude)%float else magnitude).

(** [sum(p[i] for p in pixels)]: a sum of [int]s. *)
Definition channel_sum (channel : pixel -> Z) (pixels : list pixel) : Z :=
  fold_left (fun acc p => acc + channel p) pixels 0.

(** [sum(p[i] for p in pixels) / len(pixels)]. *)
Definition average (channel : pixel -> Z) (pixels : list pixel) : attempt float :=
  int_true_div (channel_sum channel pixels) (Z.of_nat (List.length pixels)).

Definition verdict (label : string) (confidence : float) (advice : string)
  (avg_r avg_g avg_b : float) : json :=
  JDict [("label", JStr label);
         ("confidence", JFloat confidence);
         ("metrics", JDict [("avg_r", JFloat avg_r); ("avg_g", JFloat avg_g);
                            ("avg_b", JFloat avg_b)]);
         ("advice", JStr advice)].

Definition healthy : float -> float -> float -> json :=
  verdict "Healthy Leaf" 0x1.b333333333333p-1
    "No disease detected. Maintain regular irrigation and nutrient schedule.".

Definition diseased : float -> float -> float -> json :=
  verdict "Possible Leaf Disease" 0x1.6666666666666p-1
    "Inspect for spots or discoloration. Consider broad-spectrum fungicide as per schedule.".

(** [api_disease].  [upload] is [None] when the request has no 'image'
    file; otherwise it is what [Image.open(...).convert('RGB')] and
    [resize((64, 64)).getdata()] give: the pixels, or the text of the
    exception they raise. *)
Definition api_disease (upload : option (attempt (list pixel))) : response :=
  match upload with
  | None => Json 400 (JDict [("error", JStr "image is required")])
  | Some decoded =>
      let answer :=
        and_then decoded (fun pixels =>
        and_then (average red pixels) (fun avg_r =>
        and_then (average green pixels) (fun avg_g =>
        and_then (average blue pixels) (fun avg_b =>
        let health_score := (avg_g - (avg_r + avg_b) / 2)%float in
        Done (if (10 <? health_score)%float
              then healthy avg_r avg_g avg_b
              else diseased avg_r avg_g avg_b))))) in
      match answer with
      | Done body => Json 200 body
      | Failed message => Json 500 (JDict [("error", JStr message)])
      end
  end.

End Disease.

From Stdlib Require Uint63.

Module DiseaseFacts.
Import Py Weather Disease.

Lemma channel_sum_from (channel : pixel -> Z) (pixels : list pixel) (start : Z) :
  fold_left (fun acc p => acc + channel p) pixels start
  = start + channel_sum channel pixels.
Proof.
  unfold channel_sum. revert start.
  induction pixels as [|p rest IH]; intros start; simpl; [lia|].
  rewrite (IH (start + channel p)), (IH (channel p)). lia.
Qed.

Lemma channel_sum_repeat (channel : pixel -> Z) (p : pixel) (n : nat) :
  channel_sum channel (repeat p n) = Z.of_nat n * channel p.
Proof.
  induction n as [|n IH]; [reflexivity|].
  unfold channel_sum in *. cbn [repeat fold_left].
  rewrite channel_sum_from. unfold channel_sum. rewrite IH. lia.
Qed.

(** The integers from 0 to [n - 1]. *)
Definition below (n : nat) : list Z := map Z.of_nat (seq 0 n).

Lemma below_forall (P : Z -> bool) (n : nat) :
  forallb P (below n) = true -> forall v, 0 <= v < Z.of_nat n -> P v = true.
Proof.
  intros H v Hv. rewrite forallb_forall in H. apply H.
  unfold below. rewrite in_map_iff. exists (Z.to_nat v).
  split; [lia|]. apply in_seq. lia.
Qed.

Definition same (x y : float) : bool := PrimFloat.Leibniz.eqb x y.

Lemma same_eq (x y : float) : same x y = true -> x = y.
Proof. apply FloatAxioms.Leibniz.eqb_spec. Qed.

(** The float of a small natural number, by the machine's conversion. *)
Definition quick (v : Z) : float := PrimFloat.of_uint63 (Uint63.of_Z v).

Lemma float_of_Z_quick (v : Z) : 0 <= v < 2 ^ 62 -> float_of_Z v = quick v.
Proof.
  intros Hv. unfold float_of_Z, quick.
  rewrite <- (FloatAxioms.SF2Prim_Prim2SF (PrimFloat.of_uint63 _)).
  rewrite FloatAxioms.of_uint63_spec.
  change (Uint63Axioms.to_Z (Uint63.of_Z v)) with (Uint63.to_Z (Uint63.of_Z v)).
  rewrite Uint63.of_Z_spec, Z.mod_small; [reflexivity|].
  unfold Uint63.wB. simpl. lia.
Qed.

(** Three facts of binary64 arithmetic on small integers, each checked on
    every case: the mean of 4096 equal bytes is that byte; the sum of two
    bytes is exact; and the threshold of the heuristic, on a green byte and
    a sum of two bytes, is the integer inequality 2 g - s > 20. *)
Lemma mean_of_equal_bytes :
  forallb (fun v => match int_true_div (4096 * v) 4096 with
                    | Done f => same f (quick v)
                    | Failed _ => false
                    end) (below 256) = true.
Proof. vm_compute. reflexivity. Qed.

Lemma sum_of_two_bytes :
  forallb (fun r => forallb (fun b => same (quick r + quick b)%float (quick (r + b)))
                            (below 256)) (below 256) = true.
Proof. vm_compute. reflexivity. Qed.

Lemma threshold_on_bytes :
  forallb (fun g => forallb (fun s =>
             Bool.eqb (10 <? quick g - quick s / 2)%float (20 <? 2 * g - s))
           (below 511)) (below 256) = true.
Proof. vm_compute. reflexivity. Qed.

Lemma average_of_uniform (channel : pixel -> Z) (p : pixel) :
  0 <= channel p <= 255 ->
  average channel (repeat p 4096) = Done (float_of_Z (channel p)).
Proof.
  intros Hv. unfold average. rewrite channel_sum_repeat, repeat_length.
  change (Z.of_nat 4096) with 4096.
  rewrite float_of_Z_quick by lia.
  pose proof (below_forall _ 256 mean_of_equal_bytes (channel p)) as H.
  cbv beta in H.
  destruct (int_true_div (4096 * channel p) 4096) as [f|m].
  - f_equal. apply same_eq. apply H. cbn. lia.
  - assert (false = true) by (apply H; cbn; lia). discriminate.
Qed.

(** A 64 x 64 image of a single colour (r, g, b): the reported averages are
    exactly r, g and b, and the leaf is reported healthy exactly when
    2 g - r - b > 20, that is when green exceeds the mean of red and blue by
    more than 10. *)
Theorem single_colour_leaf (r g b : Z) :
  0 <= r <= 255 -> 0 <= g <= 255 -> 0 <= b <= 255 ->
  api_disease (Some (Done (repeat (r, g, b) 4096)))
  = Json 200 (if 20 <? 2 * g - r - b
              then healthy (float_of_Z r) (float_of_Z g) (float_of_Z b)
              else diseased (float_of_Z r) (float_of_Z g) (float_of_Z b)).
Proof.
  intros Hr Hg Hb. unfold api_disease. cbn [and_then].
  rewrite (average_of_uniform red), (average_of_uniform green),
    (average_of_uniform blue) by assumption.
  cbn [and_then red green blue fst snd].
  rewrite !float_of_Z_quick by lia.
  assert (Hsum : (quick r + quick b)%float = quick (r + b)).
  { apply same_eq.
    pose proof (below_forall _ 256 sum_of_two_bytes r) as H1. cbv beta in H1.
    apply (below_forall _ 256 (H1 ltac:(cbn; lia)) b). cbn. lia. }
  assert (Hcut : (10 <? quick g - quick (r + b) / 2)%float
                 = (20 <? 2 * g - (r + b))).
  { apply Bool.eqb_prop.
    pose proof (below_forall _ 256 threshold_on_bytes g) as H1. cbv beta in H1.
    apply (below_forall _ 511 (H1 ltac:(cbn; lia)) (r + b)). cbn. lia. }
  rewrite Hsum, Hcut.
  replace (2 * g - (r + b)) with (2 * g - r - b) by lia.
  destruct (20 <? 2 * g - r - b); reflexivity.
Qed.

Lemma single_colour_leaf_witness :
  api_disease (Some (Done (repeat (40, 200, 30) 4096)))
  = Json 200 (if 20 <? 2 * 200 - 40 - 30
              then healthy (float_of_Z 40) (float_of_Z 200) (float_of_Z 30)
              else diseased (float_of_Z 40) (float_of_Z 200) (float_of_Z 30)).
Proof. apply (single_colour_leaf 40 200 30); lia. Defined.

End DiseaseFacts.
